(** * dagster-stitch: the Stitch resource, embedded and verified

    A shallow embedding of [dagster_stitch/resources.py]: the request/retry
    layer [make_request], the read accessors built on it, and the two-phase
    polling call [start_replication_job_and_poll].

    Python values decoded from JSON are an inductive type, dictionaries are
    association lists in insertion order, exceptions are an error result, and
    the outside world (the HTTP server, the wall clock, the logger and
    [time.sleep]) is an oracle over the history of events of the call. *)

From Stdlib Require Import ZArith List String Ascii Bool Lia Floats DecimalString.
Import ListNotations.

Open Scope string_scope.
Open Scope Z_scope.

(** ** Python values *)

(** Hashable atoms, the keys of dictionaries.  Python hashes [True] and [1]
    (and [False] and [0]) to the same key; they are represented by [KInt]. *)
Inductive key : Type :=
| KNone
| KInt (z : Z)
| KStr (s : string).

(** Values decoded from JSON bodies, and the dictionaries and lists the code
    builds from them.  Numbers are the integers (exit statuses, identifiers);
    a dictionary lists its items in insertion order. *)
#[warnings="-register-all"]
Inductive value : Type :=
| VNone
| VBool (b : bool)
| VInt (z : Z)
| VStr (s : string)
| VList (items : list value)
| VDict (items : list (key * value)).

Definition dict : Type := list (key * value).

Definition key_eqb (a b : key) : bool :=
  match a, b with
  | KNone, KNone => true
  | KInt x, KInt y => x =? y
  | KStr x, KStr y => String.eqb x y
  | _, _ => false
  end.

(** [d.get(k)] / [d[k]] on the items of a dictionary. *)
Fixpoint dict_get (d : dict) (k : key) : option value :=
  match d with
  | [] => None
  | (k', v) :: rest => if key_eqb k' k then Some v else dict_get rest k
  end.

(** [k in d]. *)
Definition dict_has (d : dict) (k : key) : bool :=
  match dict_get d k with Some _ => true | None => false end.

(** [d[k] = v]: an existing key keeps its position, a new one goes last. *)
Fixpoint dict_set (d : dict) (k : key) (v : value) : dict :=
  match d with
  | [] => [(k, v)]
  | (k', v') :: rest =>
      if key_eqb k' k then (k', v) :: rest else (k', v') :: dict_set rest k v
  end.

Definition dict_keys (d : dict) : list key := map fst d.

(** [hash(v)]: lists and dictionaries are unhashable. *)
Definition hash_key (v : value) : option key :=
  match v with
  | VNone => Some KNone
  | VBool b => Some (KInt (Z.b2z b))
  | VInt z => Some (KInt z)
  | VStr s => Some (KStr s)
  | VList _ | VDict _ => None
  end.

Definition key_value (k : key) : value :=
  match k with
  | KNone => VNone
  | KInt z => VInt z
  | KStr s => VStr s
  end.

(** [bool(v)]. *)
Definition truthy (v : value) : bool :=
  match v with
  | VNone => false
  | VBool b => b
  | VInt z => negb (z =? 0)
  | VStr s => negb (String.eqb s EmptyString)
  | VList l => match l with [] => false | _ => true end
  | VDict d => match d with [] => false | _ => true end
  end.

(** [a == b].  Booleans compare as the integers 0 and 1, lists elementwise,
    dictionaries as mappings (order of insertion is ignored). *)
Fixpoint py_eqb (a b : value) {struct a} : bool :=
  match a, b with
  | VNone, VNone => true
  | VBool x, VBool y => Bool.eqb x y
  | VBool x, VInt y => Z.b2z x =? y
  | VInt x, VBool y => x =? Z.b2z y
  | VInt x, VInt y => x =? y
  | VStr x, VStr y => String.eqb x y
  | VList xs, VList ys =>
      (fix elems (xs ys : list value) {struct xs} : bool :=
         match xs, ys with
         | [], [] => true
         | x :: xs', y :: ys' => py_eqb x y && elems xs' ys'
         | _, _ => false
         end) xs ys
  | VDict xs, VDict ys =>
      (List.length xs =? List.length ys)%nat &&
      (fix items (xs : dict) {struct xs} : bool :=
         match xs with
         | [] => true
         | (k, v) :: xs' =>
             match dict_get ys k with
             | Some w => py_eqb v w
             | None => false
             end && items xs'
         end) xs
  | _, _ => false
  end.

(** [str(k)] for an atom, as f-strings interpolate it into an endpoint. *)
Definition Z_to_string (z : Z) : string :=
  DecimalString.NilZero.string_of_int (Z.to_int z).

Definition key_str (k : key) : string :=
  match k with
  | KNone => "None"
  | KInt z => Z_to_string z
  | KStr s => s
  end.

(** [needle in haystack] for two strings. *)
Fixpoint is_prefix (p s : string) : bool :=
  match p, s with
  | EmptyString, _ => true
  | String a p', String b s' => Ascii.eqb a b && is_prefix p' s'
  | String _ _, EmptyString => false
  end.

Fixpoint is_substring (needle hay : string) : bool :=
  is_prefix needle hay ||
  match hay with
  | EmptyString => false
  | String _ hay' => is_substring needle hay'
  end.

(** [s.title()] on ASCII text: a letter after a non-letter is upper-cased,
    a letter after a letter lower-cased. *)
Definition is_lower (c : ascii) : bool :=
  let n := nat_of_ascii c in (97 <=? n)%nat && (n <=? 122)%nat.
Definition is_upper (c : ascii) : bool :=
  let n := nat_of_ascii c in (65 <=? n)%nat && (n <=? 90)%nat.
Definition to_upper (c : ascii) : ascii :=
  if is_lower c then ascii_of_nat (nat_of_ascii c - 32) else c.
Definition to_lower (c : ascii) : ascii :=
  if is_upper c then ascii_of_nat (nat_of_ascii c + 32) else c.

Fixpoint title_from (prev_cased : bool) (s : string) : string :=
  match s with
  | EmptyString => EmptyString
  | String c rest =>
      let cased := is_lower c || is_upper c in
      String (if prev_cased then to_lower c else to_upper c)
             (title_from cased rest)
  end.

Definition title (s : string) : string := title_from false s.

(** ** Instants: [datetime] and [timedelta] *)

(** A naive [datetime] is the instant it denotes, in microseconds since
    0001-01-01T00:00:00; a [timedelta] is a signed number of microseconds. *)
Record datetime : Type := Datetime { ordinal_us : Z }.

Definition datetime_ltb (a b : datetime) : bool := ordinal_us a <? ordinal_us b.
Definition datetime_leb (a b : datetime) : bool := ordinal_us a <=? ordinal_us b.

(** [a - b] of two datetimes. *)
Definition datetime_sub (a b : datetime) : Z := ordinal_us a - ordinal_us b.

Definition is_leap (y : Z) : bool :=
  (y mod 4 =? 0) && (negb (y mod 100 =? 0) || (y mod 400 =? 0)).

Definition days_in_month (y m : Z) : Z :=
  if m =? 2 then (if is_leap y then 29 else 28)
  else if (m =? 4) || (m =? 6) || (m =? 9) || (m =? 11) then 30
  else 31.

Definition days_before_year (y : Z) : Z :=
  let p := y - 1 in p * 365 + p / 4 - p / 100 + p / 400.

Definition days_before_month (y m : Z) : Z :=
  fold_left (fun acc k => acc + days_in_month y (Z.of_nat k))
            (seq 1 (Z.to_nat (m - 1))) 0.

(** [datetime(y, m, d, hh, mm, ss)], [None] for the [ValueError] of a field
    out of range. *)
Definition make_datetime (y m d hh mm ss : Z) : option datetime :=
  if (1 <=? y) && (y <=? 9999) && (1 <=? m) && (m <=? 12) &&
     (1 <=? d) && (d <=? days_in_month y m) &&
     (hh <=? 23) && (mm <=? 59) && (ss <=? 59)
  then
    let days := days_before_year y + days_before_month y m + (d - 1) in
    Some (Datetime ((((days * 24 + hh) * 60 + mm) * 60 + ss) * 1000000))
  else None.

Definition STITCH_DATETIME_FORMAT : string := "%Y-%m-%dT%H:%M:%SZ".

Definition digit (c : ascii) : option Z :=
  let n := Z.of_nat (nat_of_ascii c) in
  if (48 <=? n) && (n <=? 57) then Some (n - 48) else None.

(** Reads exactly [n] decimal digits. *)
Fixpoint read_digits (n : nat) (acc : Z) (s : string) : option (Z * string) :=
  match n with
  | O => Some (acc, s)
  | S n' =>
      match s with
      | EmptyString => None
      | String c rest =>
          match digit c with
          | Some d => read_digits n' (acc * 10 + d) rest
          | None => None
          end
      end
  end.

Definition read_char (c : ascii) (s : string) : option string :=
  match s with
  | String c' rest => if Ascii.eqb c c' then Some rest else None
  | EmptyString => None
  end.

(** [datetime.strptime(s, STITCH_DATETIME_FORMAT)] on the wire format
    [YYYY-MM-DDTHH:MM:SSZ] with zero-padded fields; [None] is [ValueError].
    (Python also tolerates fields without the padding; those spellings are
    not part of the wire format and are rejected here.) *)
Definition strptime (s : string) : option datetime :=
  match read_digits 4 0 s with
  | Some (y, s) =>
  match read_char "-" s with
  | Some s =>
  match read_digits 2 0 s with
  | Some (m, s) =>
  match read_char "-" s with
  | Some s =>
  match read_digits 2 0 s with
  | Some (d, s) =>
  match read_char "T" s with
  | Some s =>
  match read_digits 2 0 s with
  | Some (hh, s) =>
  match read_char ":" s with
  | Some s =>
  match read_digits 2 0 s with
  | Some (mm, s) =>
  match read_char ":" s with
  | Some s =>
  match read_digits 2 0 s with
  | Some (ss, s) =>
  match read_char "Z" s with
  | Some EmptyString => make_datetime y m d hh mm ss
  | _ => None
  end | None => None end | None => None end | None => None end
      | None => None end | None => None end | None => None end
      | None => None end | None => None end | None => None end
      | None => None end | None => None end.

(** ** Objects, exceptions and the event history *)

(** The objects the call handles besides JSON values: the float arguments
    and settings (seconds), datetimes and timedeltas. *)
Inductive pyobj : Type :=
| OVal (v : value)
| OFloat (f : float)
| ODatetime (d : datetime)
| OTimedelta (us : Z).

Definition ONone : pyobj := OVal VNone.

Definition is_None (o : pyobj) : bool :=
  match o with OVal VNone => true | _ => false end.

(** [bool(o)]: a float is false when it is zero, a timedelta when it is
    empty, a datetime never. *)
Definition obj_truthy (o : pyobj) : bool :=
  match o with
  | OVal v => truthy v
  | OFloat f => negb (PrimFloat.eqb f 0%float)
  | ODatetime _ => true
  | OTimedelta us => negb (us =? 0)
  end.

(** An f-string, kept as its literal and interpolated parts. *)
Inductive piece : Type :=
| Lit (s : string)
| Fmt (o : pyobj).

Definition fstring : Type := list piece.

Definition FStr (s : string) : piece := Fmt (OVal (VStr s)).
Definition FVal (v : value) : piece := Fmt (OVal v).

Inductive exn : Type :=
| Failure (description : fstring)
| TypeError
| KeyError (k : key)
| IndexError
| ValueError.

Inductive level : Type := INFO | WARNING | ERROR.

Inductive event : Type :=
| EvRequest (method url : string) (data : option string)
| EvNow (d : datetime)
| EvSleep (secs : pyobj)
| EvLog (lvl : level) (msg : fstring).

(** The history of a call, most recent event first. *)
Definition history : Type := list event.

(** What [requests.request(...)], [raise_for_status()] and [json()] give for
    one attempt: a [RequestException], or the decoded body. *)
Inductive http_outcome : Type :=
| RequestException (msg : string)
| Response (json : value).

(** The world outside the call, as a function of what happened so far. *)
Record Env : Type := {
  http : history -> string -> string -> option string -> http_outcome;
  clock : history -> datetime
}.

(** ** The monad of the embedding: history passing with exceptions.
    [OutOfFuel] marks a poll loop that was cut off by the model's bound on
    iterations; it is not a Python result. *)
Inductive outcome (A : Type) : Type :=
| Ret (a : A)
| Raise (e : exn)
| OutOfFuel.
Arguments Ret {A} a.
Arguments Raise {A} e.
Arguments OutOfFuel {A}.

Definition M (A : Type) : Type := history -> outcome A * history.

Definition ret {A} (a : A) : M A := fun h => (Ret a, h).
Definition raise {A} (e : exn) : M A := fun h => (Raise e, h).
Definition out_of_fuel {A} : M A := fun h => (OutOfFuel, h).

Definition bind {A B} (m : M A) (k : A -> M B) : M B :=
  fun h =>
    match m h with
    | (Ret a, h') => k a h'
    | (Raise e, h') => (Raise e, h')
    | (OutOfFuel, h') => (OutOfFuel, h')
    end.

Definition lift {A} (o : outcome A) : M A := fun h => (o, h).

Declare Scope py_scope.
Delimit Scope py_scope with py.
Notation "x <- m ;; k" := (bind m (fun x => k))
  (at level 100, m at next level, right associativity) : py_scope.
Notation "m ;;; k" := (bind m (fun _ => k))
  (at level 100, right associativity) : py_scope.
Open Scope py_scope.

Definition emit (e : event) : M unit := fun h => (Ret tt, e :: h).

Definition log (lvl : level) (msg : fstring) : M unit := emit (EvLog lvl msg).

(** [requests.request(method, url, ...)] followed by [raise_for_status()]
    and [json()]. *)
Definition requests_request (env : Env) (method url : string)
    (data : option string) : M http_outcome :=
  fun h => (Ret (http env h method url data), EvRequest method url data :: h).

(** [datetime.now()]. *)
Definition datetime_now (env : Env) : M datetime :=
  fun h => let d := clock env h in (Ret d, EvNow d :: h).

(** [time.sleep(secs)]: a number is required, and it must not be negative
    or NaN.  (An infinite float, which overflows the platform timer, is
    taken as a sleep.) *)
Definition time_sleep (secs : pyobj) : M unit :=
  match secs with
  | OFloat f =>
      if PrimFloat.leb 0%float f then emit (EvSleep secs) else raise ValueError
  | OVal (VInt z) =>
      if 0 <=? z then emit (EvSleep secs) else raise ValueError
  | OVal (VBool _) => emit (EvSleep secs)
  | _ => raise TypeError
  end.

(** Exceptions without history, for the pure steps. *)
Definition obind {A B} (o : outcome A) (k : A -> outcome B) : outcome B :=
  match o with
  | Ret a => k a
  | Raise e => Raise e
  | OutOfFuel => OutOfFuel
  end.

Notation "x <~ m ;; k" := (obind m (fun x => k))
  (at level 100, m at next level, right associativity) : py_scope.

(** ** Operators on values *)

Definition list_index (l : list value) (z : Z) : outcome value :=
  let n := Z.of_nat (List.length l) in
  let i := if z <? 0 then z + n else z in
  if (0 <=? i) && (i <? n)
  then match nth_error l (Z.to_nat i) with
       | Some x => Ret x
       | None => Raise IndexError
       end
  else Raise IndexError.

Definition chars (s : string) : list value :=
  map (fun c => VStr (String c EmptyString)) (list_ascii_of_string s).

(** [v[i]]. *)
Definition subscript (v i : value) : outcome value :=
  match v with
  | VDict d =>
      match hash_key i with
      | Some k =>
          match dict_get d k with
          | Some x => Ret x
          | None => Raise (KeyError k)
          end
      | None => Raise TypeError
      end
  | VList l =>
      match i with
      | VInt z => list_index l z
      | VBool b => list_index l (Z.b2z b)
      | _ => Raise TypeError
      end
  | VStr s =>
      match i with
      | VInt z => list_index (chars s) z
      | VBool b => list_index (chars s) (Z.b2z b)
      | _ => Raise TypeError
      end
  | _ => Raise TypeError
  end.

Definition item (v : value) (name : string) : outcome value :=
  subscript v (VStr name).

(** [x in c]. *)
Definition py_in (x c : value) : outcome bool :=
  match c with
  | VDict d =>
      match hash_key x with
      | Some k => Ret (dict_has d k)
      | None => Raise TypeError
      end
  | VList l => Ret (existsb (fun e => py_eqb e x) l)
  | VStr s =>
      match x with
      | VStr n => Ret (is_substring n s)
      | _ => Raise TypeError
      end
  | _ => Raise TypeError
  end.

(** The elements [for x in v] visits. *)
Definition py_iter (v : value) : outcome (list value) :=
  match v with
  | VList l => Ret l
  | VDict d => Ret (map key_value (dict_keys d))
  | VStr s => Ret (chars s)
  | _ => Raise TypeError
  end.

(** Ordering comparisons.  Every [<], [>] and [>=] of the module on objects
    has a datetime or a timedelta as one operand, and such an object orders
    only against its own kind; any other pairing is a [TypeError]. *)
Definition temporal_compare (a b : pyobj) : outcome comparison :=
  match a, b with
  | ODatetime x, ODatetime y => Ret (ordinal_us x ?= ordinal_us y)
  | OTimedelta x, OTimedelta y => Ret (x ?= y)
  | _, _ => Raise TypeError
  end.

Definition py_lt (a b : pyobj) : outcome bool :=
  c <~ temporal_compare a b ;;
  Ret (match c with Lt => true | _ => false end).

Definition py_gt (a b : pyobj) : outcome bool :=
  c <~ temporal_compare a b ;;
  Ret (match c with Gt => true | _ => false end).

Definition py_ge (a b : pyobj) : outcome bool :=
  c <~ temporal_compare a b ;;
  Ret (match c with Lt => false | _ => true end).

(** [{key_of(x): x for x in xs}]. *)
Fixpoint dict_by (field : string) (xs : list value) (acc : dict)
  : outcome dict :=
  match xs with
  | [] => Ret acc
  | x :: rest =>
      kv <~ item x field ;;
      match hash_key kv with
      | Some k => dict_by field rest (dict_set acc k x)
      | None => Raise TypeError
      end
  end.

(** ** The resource *)

Definition STITCH_API_BASE : string := "https://api.stitchdata.com/".
Definition STITCH_API_VERSION : string := "v4/".

(** [urllib.parse.urljoin] of a base that ends in [/] and a relative path
    without dot segments, which is what the module joins. *)
Definition urljoin (base rel : string) : string := base ++ rel.

Definition API_BASE_URL : string := urljoin STITCH_API_BASE STITCH_API_VERSION.

(** The settings [__init__] stores.  The credential and the logger take no
    part in control flow and are left to the environment. *)
Record StitchResource : Type := {
  _account_id : string;
  _request_max_retries : Z;
  _default_poll_interval : pyobj;
  _default_extraction_timeout : pyobj;
  _default_load_timeout : pyobj;
  _request_retry_delay : pyobj
}.

(** [StitchOutput(extraction, loads, stream_schemas)]; the class lives in
    [dagster_stitch/types.py] and only its constructor call is used here. *)
Record StitchOutput : Type := {
  out_extraction : value;
  out_loads : dict;
  out_stream_schemas : dict
}.

Definition request_exhausted (url : string) (max_retries : Z) : exn :=
  Failure [Lit "Request to Stitch API at <"; FStr url;
           Lit "> failed after reaching max retries "; FVal (VInt max_retries)].

Section Resource.

Variable env : Env.
Variable self : StitchResource.

(** The [while retries < max_retries] loop of [make_request]. *)
Fixpoint make_request_loop (fuel : nat) (method url : string)
    (data : option string) (retries : Z) : M value :=
  match fuel with
  | O => out_of_fuel
  | S fuel' =>
      if retries <? _request_max_retries self then
        r <- requests_request env method url data ;;
        match r with
        | Response response_json =>
            match response_json with
            | VDict fields =>
                let links := match dict_get fields (KStr "links") with
                             | Some l => l
                             | None => VDict []
                             end in
                has_next <- lift (py_in (VStr "next") links) ;;
                (if has_next
                 then log WARNING [Lit "Pagination not yet implemented"]
                 else ret tt) ;;;
                ret (match dict_get fields (KStr "data") with
                     | Some d => d
                     | None => response_json
                     end)
            | _ => ret response_json
            end
        | RequestException e =>
            log ERROR [Lit "Request to Stitch API at <"; FStr url;
                       Lit "> failed: "; Lit e] ;;;
            let retries := retries + 1 in
            time_sleep (_request_retry_delay self) ;;;
            make_request_loop fuel' method url data retries
        end
      else raise (request_exhausted url (_request_max_retries self))
  end.

Definition make_request (method endpoint : string) (data : option string)
  : M value :=
  let url := urljoin API_BASE_URL endpoint in
  make_request_loop (S (Z.to_nat (_request_max_retries self)))
                    method url data 0.

Definition get_data_source (data_source_id : string) : M value :=
  make_request "GET" ("sources/" ++ data_source_id) None.

Definition list_all_sources : M value :=
  make_request "GET" "sources" None.

Definition list_streams (data_source_id : string) : M dict :=
  streams <- make_request "GET" ("sources/" ++ data_source_id ++ "/streams")
                          None ;;
  lift (xs <~ py_iter streams ;; dict_by "stream_name" xs []).

(** The list comprehension of [get_stream_schema]: the condition is
    evaluated first, then the element. *)
Fixpoint selected_properties (metadata : list value) : outcome (list value) :=
  match metadata with
  | [] => Ret []
  | property :: rest =>
      breadcrumb <~ item property "breadcrumb" ;;
      is_property <~ py_in (VStr "properties") breadcrumb ;;
      keep <~ (if is_property
               then md <~ item property "metadata" ;;
                    sel <~ item md "selected" ;;
                    Ret (truthy sel)
               else Ret false) ;;
      if keep
      then name <~ subscript breadcrumb (VInt 1) ;;
           names <~ selected_properties rest ;;
           Ret (name :: names)
      else selected_properties rest
  end.

Definition get_stream_schema (data_source_id : string) (stream_id : key)
  : M value :=
  schema <- make_request "GET" ("sources/" ++ data_source_id ++ "/streams/"
                                ++ key_str stream_id) None ;;
  lift (schema_string <~ item schema "schema" ;;
        metadata <~ item schema "metadata" ;;
        entries <~ py_iter metadata ;;
        names <~ selected_properties entries ;;
        Ret (VDict [(KStr "stream_id", key_value stream_id);
                    (KStr "schema", VList names)])).

(** The loop of [list_recent_loads] that nests the loads by data source and
    then by stream name. *)
Fixpoint nest_loads (loads : list value) (all_loads : dict) : outcome dict :=
  match loads with
  | [] => Ret all_loads
  | load :: rest =>
      source_name <~ item load "source_name" ;;
      match hash_key source_name with
      | None => Raise TypeError
      | Some source =>
          let all_loads := if dict_has all_loads source then all_loads
                           else dict_set all_loads source (VDict []) in
          match dict_get all_loads source with
          | Some (VDict by_stream) =>
              stream_name <~ item load "stream_name" ;;
              match hash_key stream_name with
              | None => Raise TypeError
              | Some stream =>
                  nest_loads rest
                    (dict_set all_loads source
                              (VDict (dict_set by_stream stream load)))
              end
          | Some _ => Raise TypeError
          | None => Raise (KeyError source)
          end
      end
  end.

Definition list_recent_loads (data_source_id : option string) : M dict :=
  loads <- make_request "GET" ("sources/" ++ _account_id self ++ "/loads")
                        None ;;
  all_loads <- lift (xs <~ py_iter loads ;; nest_loads xs []) ;;
  match data_source_id with
  | Some id =>
      if negb (String.eqb id EmptyString)
      then match dict_get all_loads (KStr id) with
           | Some (VDict by_stream) => ret by_stream
           | Some _ => raise TypeError
           | None => ret []
           end
      else ret all_loads
  | None => ret all_loads
  end.

Definition start_replication_job (data_source_id : string) : M value :=
  response <- make_request "POST" ("sources/" ++ data_source_id ++ "/sync")
                           None ;;
  has_error <- lift (py_in (VStr "error") response) ;;
  if has_error
  then err <- lift (item response "error") ;; raise (Failure [FVal err])
  else ret response.

Definition get_extractions (data_source_id : option string) : M value :=
  extractions <- make_request "GET" ("sources/" ++ _account_id self
                                     ++ "/extractions") None ;;
  extraction_map <- lift (xs <~ py_iter extractions ;;
                          dict_by "source_id" xs []) ;;
  match data_source_id with
  | Some id =>
      ret (match dict_get extraction_map (KStr id) with
           | Some e => e
           | None => VDict []
           end)
  | None => ret (VDict extraction_map)
  end.

(** *** [start_replication_job_and_poll] *)

Definition extraction_not_found (data_source_id : string) : exn :=
  Failure [Lit "Extraction not found for data source "; FStr data_source_id].

Definition extraction_timed_out (data_source_id : string) (timeout : pyobj)
  : exn :=
  Failure [Lit "Extraction job for source "; FStr data_source_id;
           Lit " timed out after "; Fmt timeout; Lit " seconds"].

Definition stage_failed (failure_mode : string) (status description : value)
  : exn :=
  Failure [FStr (title failure_mode); Lit " failed with exit status ";
           FVal status; Lit ": "; FVal description].

Definition load_not_found (data_source_id : string) : exn :=
  Failure [Lit "Load not found for data source "; FStr data_source_id].

Definition stream_load_missing (stream_name : value) : exn :=
  Failure [Lit "Load for stream "; FVal stream_name; Lit " not found"].

Definition load_timed_out (data_source_id : string) (timeout : pyobj) : exn :=
  Failure [Lit "Load for source "; FStr data_source_id;
           Lit " timed out after "; Fmt timeout; Lit " seconds"].

Definition polled_extractions (data_source_id : string)
    (job_name start_time : value) : fstring :=
  [Lit "Polled extractions for source "; FStr data_source_id;
   Lit ": Found job "; FVal job_name; Lit " started at "; FVal start_time].

Definition stream_load_failed (stream_name message : value) : fstring :=
  [Lit "Load for stream "; FVal stream_name; Lit " failed: "; FVal message].

(** [timeout and datetime.now() - start > timeout]: the clock is read and
    the difference compared only when [timeout] is true. *)
Definition timeout_exceeded (timeout : pyobj) (start : datetime) : M bool :=
  if obj_truthy timeout
  then now <- datetime_now env ;;
       lift (py_gt (OTimedelta (datetime_sub now start)) timeout)
  else ret false.

(** The exit test of the extraction poll: [or] evaluates its second operand
    only when the job names differ. *)
Definition extraction_observed (extraction replication_response : value)
    (extraction_start : datetime) : outcome bool :=
  observed <~ item extraction "job_name" ;;
  started <~ item replication_response "job_name" ;;
  if py_eqb observed started then Ret true
  else start_time <~ item extraction "start_time" ;;
       py_ge (OVal start_time) (ODatetime extraction_start).

(** The first [while True] loop. *)
Fixpoint extraction_loop (fuel : nat) (data_source_id : string)
    (poll_interval extraction_timeout : pyobj) (extraction_start : datetime)
    (replication_response : value) : M value :=
  match fuel with
  | O => out_of_fuel
  | S fuel' =>
      extraction <- get_extractions (Some data_source_id) ;;
      if negb (truthy extraction)
      then raise (extraction_not_found data_source_id)
      else
        job_name <- lift (item extraction "job_name") ;;
        start_time <- lift (item extraction "start_time") ;;
        log INFO (polled_extractions data_source_id job_name start_time) ;;;
        done <- lift (extraction_observed extraction replication_response
                                          extraction_start) ;;
        if done then ret extraction
        else
          late <- timeout_exceeded extraction_timeout extraction_start ;;
          if late
          then raise (extraction_timed_out data_source_id extraction_timeout)
          else time_sleep poll_interval ;;;
               extraction_loop fuel' data_source_id poll_interval
                 extraction_timeout extraction_start replication_response
  end.

(** [for failure_mode in ("discovery", "tap", "target")]. *)
Definition failure_modes : list string := ["discovery"; "tap"; "target"].

Fixpoint stage_check (modes : list string) (extraction : value)
  : outcome unit :=
  match modes with
  | [] => Ret tt
  | failure_mode :: rest =>
      status <~ item extraction (failure_mode ++ "_exit_status") ;;
      if negb (truthy status)
      then stage_check rest extraction  (* continue: still in progress *)
      else if negb (py_eqb status (VInt 0))
      then description <~ item extraction (failure_mode ++ "_description") ;;
           Raise (stage_failed failure_mode status description)
      else stage_check rest extraction
  end.

(** The [elif] of the load check: no batch yet, or a batch loaded before the
    load phase started.  [strptime] wants a string. *)
Definition load_is_stale (last_batch_loaded_at : value)
    (load_start : datetime) : outcome bool :=
  match last_batch_loaded_at with
  | VNone => Ret true
  | VStr s =>
      match strptime s with
      | Some loaded_at => py_lt (ODatetime loaded_at) (ODatetime load_start)
      | None => Raise ValueError
      end
  | _ => Raise TypeError
  end.

(** The [for stream in streams] loop of one load poll; the result is
    [loading_complete]. *)
Fixpoint check_streams (names : list key) (streams loads : dict)
    (load_start : datetime) (loading_complete : bool) : M bool :=
  match names with
  | [] => ret loading_complete
  | stream :: rest =>
      descr <- lift (subscript (VDict streams) (key_value stream)) ;;
      metadata <- lift (item descr "metadata") ;;
      selected <- lift (item metadata "selected") ;;
      if truthy selected
      then
        stream_name <- lift (item descr "stream_name") ;;
        found <- lift (py_in stream_name (VDict loads)) ;;
        if negb found then raise (stream_load_missing stream_name)
        else
          load <- lift (subscript (VDict loads) stream_name) ;;
          error_state <- lift (item load "error_state") ;;
          if truthy error_state
          then message <- lift (item error_state "message") ;;
               log WARNING (stream_load_failed stream_name message) ;;;
               check_streams rest streams loads load_start loading_complete
          else
            last_batch <- lift (item load "last_batch_loaded_at") ;;
            stale <- lift (load_is_stale last_batch load_start) ;;
            check_streams rest streams loads load_start
                          (if stale then false else loading_complete)
      else check_streams rest streams loads load_start loading_complete
  end.

(** The [while not loading_complete] loop. *)
Fixpoint load_loop (fuel : nat) (data_source_id : string)
    (poll_interval load_timeout : pyobj) (streams : dict)
    (load_start : datetime) : M dict :=
  match fuel with
  | O => out_of_fuel
  | S fuel' =>
      loads <- list_recent_loads (Some data_source_id) ;;
      match loads with
      | [] => raise (load_not_found data_source_id)
      | _ =>
          log INFO [Lit "Polled loads for source "; FStr data_source_id] ;;;
          loading_complete <- check_streams (dict_keys streams) streams loads
                                            load_start true ;;
          if negb loading_complete
          then
            late <- timeout_exceeded load_timeout load_start ;;
            if late then raise (load_timed_out data_source_id load_timeout)
            else time_sleep poll_interval ;;;
                 load_loop fuel' data_source_id poll_interval load_timeout
                           streams load_start
          else ret loads
      end
  end.

(** [{stream_name: self.get_stream_schema(...) for stream_name in
    streams.keys()}]. *)
Fixpoint fetch_schemas (data_source_id : string) (names : list key)
    (acc : dict) : M dict :=
  match names with
  | [] => ret acc
  | stream_name :: rest =>
      schema <- get_stream_schema data_source_id stream_name ;;
      fetch_schemas data_source_id rest (dict_set acc stream_name schema)
  end.

(** The load phase and the assembly of the result, from [list_streams] on. *)
Definition load_phase (fuel : nat) (data_source_id : string)
    (poll_interval load_timeout : pyobj) (extraction : value)
  : M StitchOutput :=
  streams <- list_streams data_source_id ;;
  load_start <- datetime_now env ;;
  loads <- load_loop fuel data_source_id poll_interval load_timeout streams
                     load_start ;;
  stream_schemas <- fetch_schemas data_source_id (dict_keys streams) [] ;;
  ret {| out_extraction := extraction;
         out_loads := loads;
         out_stream_schemas := stream_schemas |}.

(** [fuel] bounds the number of polls of each of the two loops. *)
Definition start_replication_job_and_poll (fuel : nat)
    (data_source_id : string)
    (poll_interval extraction_timeout load_timeout : pyobj)
  : M StitchOutput :=
  let poll_interval := if is_None poll_interval
                       then _default_poll_interval self
                       else poll_interval in
  let extraction_timeout := if is_None extraction_timeout
                            then _default_extraction_timeout self
                            else extraction_timeout in
  extraction_start <- datetime_now env ;;
  replication_response <- start_replication_job data_source_id ;;
  extraction <- extraction_loop fuel data_source_id poll_interval
                                extraction_timeout extraction_start
                                replication_response ;;
  lift (stage_check failure_modes extraction) ;;;
  load_phase fuel data_source_id poll_interval load_timeout extraction.

End Resource.

(** [stitch_resource]: the defaults of the Dagster resource configuration,
    which differ from those of [StitchResource.__init__] for the two
    timeouts. *)
Definition init_defaults (account_id : string) : StitchResource :=
  {| _account_id := account_id;
     _request_max_retries := 3;
     _default_poll_interval := OFloat 10%float;
     _default_extraction_timeout := ONone;
     _default_load_timeout := ONone;
     _request_retry_delay := OFloat 0.25%float |}.

Definition stitch_resource_defaults (account_id : string) : StitchResource :=
  {| _account_id := account_id;
     _request_max_retries := 3;
     _default_poll_interval := OVal (VInt 10);
     _default_extraction_timeout := OVal (VInt 600);
     _default_load_timeout := OVal (VInt 600);
     _request_retry_delay := OFloat 0.25%float |}.

(** ** The fixtures of [tests/constants.py] *)

Module Fixture.

Definition API_KEY : string := "foo".
Definition DATA_SOURCE_ID : string := "bing".
Definition ACCOUNT_ID : string := "bar".
Definition JOB_ID : string := "baz".
Definition STREAM_NAME : string := "qux".

Definition obj (fields : list (string * value)) : value :=
  VDict (map (fun kv => (KStr (fst kv), snd kv)) fields).

Definition extraction_record (source_id : string) : value :=
  obj [("target_exit_status", VInt 0);
       ("job_name", VStr JOB_ID);
       ("start_time", VStr "2023-02-19T03:11:48Z");
       ("stitch_client_id", VInt 204845);
       ("tap_exit_status", VInt 0);
       ("source_type", VStr "tap-github");
       ("target_description", VNone);
       ("discovery_exit_status", VInt 0);
       ("discovery_description", VNone);
       ("tap_description", VNone);
       ("completion_time", VStr "2023-02-19T03:11:56Z");
       ("source_id", VStr source_id)].

Definition get_extraction_response (failure : bool) : value :=
  obj [("data", VList [extraction_record
                         (if failure then "wrong" else DATA_SOURCE_ID)]);
       ("page", VInt 1);
       ("total", VInt 1);
       ("links", obj [])].

Definition stream_descriptor (name : string) (selected : bool) : value :=
  obj [("selected", VBool selected);
       ("stream_id", VInt 29749020);
       ("tap_stream_id", VStr name);
       ("stream_name", VStr name);
       ("metadata", obj [("forced-replication-method", VStr "FULL_TABLE");
                         ("selected", VBool selected);
                         ("inclusion", VStr "available");
                         ("table-key-properties", VList [VStr "id"])])].

Definition get_list_streams_response : value :=
  VList [stream_descriptor STREAM_NAME true].

Definition load_record (source stream : string) (loaded_at error_state : value)
  : value :=
  obj [("stitch_client_id", VInt 204845);
       ("source_name", VStr source);
       ("stream_name", VStr stream);
       ("last_batch_loaded_at", loaded_at);
       ("error_state", error_state)].

Definition get_list_loads_response (loaded_at : string) : value :=
  obj [("data", VList [load_record DATA_SOURCE_ID STREAM_NAME
                                    (VStr loaded_at) VNone]);
       ("page", VInt 1);
       ("total", VInt 10);
       ("links", obj [])].

Definition property_entry (breadcrumb : list string) (selected : bool)
  : value :=
  obj [("breadcrumb", VList (map VStr breadcrumb));
       ("metadata", obj [("inclusion", VStr "available");
                         ("selected", VBool selected)])].

(** A double-quoted word of the schema text. *)
Definition q (word : string) : string :=
  String (ascii_of_nat 34) (word ++ String (ascii_of_nat 34) EmptyString).

Definition get_stream_schema_response : value :=
  obj [("schema",
        VStr ("{" ++ q "type" ++ ": " ++ q "object" ++ ", " ++ q "properties"
              ++ ": {" ++ q "id" ++ ": {" ++ q "type" ++ ": " ++ q "integer"
              ++ "}, " ++ q "name" ++ ": {" ++ q "type" ++ ": " ++ q "string"
              ++ "}}}"));
       ("metadata",
        VList [obj [("breadcrumb", VList []);
                    ("metadata",
                     obj [("forced-replication-method", VStr "INCREMENTAL");
                          ("inclusion", VStr "available");
                          ("selected", VBool true);
                          ("table-key-properties", VList [VStr "sha"]);
                          ("valid-replication-keys", VStr "updated_at")])];
               property_entry ["properties"; "author"] true;
               property_entry ["properties"; "description"] true]);
       ("non-discoverable-metadata-keys", VList [VStr "selected"])].

(** A server as [responses.RequestsMock] sets one up: a table from method
    and URL to a body; anything else is a connection error. *)
Definition route : Type := (string * string * value)%type.

Fixpoint lookup_route (routes : list route) (method url : string)
  : http_outcome :=
  match routes with
  | [] => RequestException "Connection refused by Responses"
  | (m, u, body) :: rest =>
      if String.eqb m method && String.eqb u url then Response body
      else lookup_route rest method url
  end.

Definition mock_env (routes : list route) (now : datetime) : Env :=
  {| http := fun _ method url _ => lookup_route routes method url;
     clock := fun _ => now |}.

Definition sync_routes (loaded_at : string) : list route :=
  [("POST", "https://api.stitchdata.com/v4/sources/bing/sync",
    obj [("job_name", VStr JOB_ID)]);
   ("GET", "https://api.stitchdata.com/v4/sources/bar/extractions",
    get_extraction_response false);
   ("GET", "https://api.stitchdata.com/v4/sources/bing/streams",
    get_list_streams_response);
   ("GET", "https://api.stitchdata.com/v4/sources/bar/loads",
    get_list_loads_response loaded_at);
   ("GET", "https://api.stitchdata.com/v4/sources/bing/streams/qux",
    get_stream_schema_response)].

(** 2023-02-19 03:12:00, and the load of the fixture one day later. *)
Definition now0 : datetime := Datetime 63812373120000000.
Definition tomorrow : string := "2023-02-20T03:12:00Z".

Definition mock_sync_requests : Env := mock_env (sync_routes tomorrow) now0.

Definition resource : StitchResource := init_defaults ACCOUNT_ID.

End Fixture.

(** ** Vocabulary of the statements *)

(** The arguments [time.sleep] accepts. *)
Definition valid_sleep (secs : pyobj) : bool :=
  match secs with
  | OFloat f => PrimFloat.leb 0%float f
  | OVal (VInt z) => 0 <=? z
  | OVal (VBool _) => true
  | _ => false
  end.

Definition is_request (e : event) : bool :=
  match e with EvRequest _ _ _ => true | _ => false end.

Definition is_sleep (e : event) : bool :=
  match e with EvSleep _ => true | _ => false end.

Definition count_requests (h : history) : nat :=
  List.length (filter is_request h).

Definition count_sleeps (h : history) : nat :=
  List.length (filter is_sleep h).

Definition error_text (o : http_outcome) : string :=
  match o with
  | RequestException e => e
  | Response _ => EmptyString
  end.

(** The history after [n] more attempts that all failed: each attempt is a
    request, the error it logs and a sleep of the retry delay. *)
Fixpoint failed_attempts (env : Env) (delay : pyobj) (method url : string)
    (data : option string) (n : nat) (h : history) : history :=
  match n with
  | O => h
  | S n' =>
      failed_attempts env delay method url data n'
        (EvSleep delay
         :: EvLog ERROR [Lit "Request to Stitch API at <"; FStr url;
                         Lit "> failed: ";
                         Lit (error_text (http env h method url data))]
         :: EvRequest method url data :: h)
  end.


(** The extraction endpoint reports another job than the one just started,
    begun a day after the call. *)
Definition newer_job_record : value :=
  Fixture.obj [("job_name", VStr "newer");
               ("start_time", VStr Fixture.tomorrow);
               ("discovery_exit_status", VInt 0);
               ("tap_exit_status", VInt 0);
               ("target_exit_status", VInt 0);
               ("source_id", VStr Fixture.DATA_SOURCE_ID)].

Definition newer_job_routes : list Fixture.route :=
  [("POST", "https://api.stitchdata.com/v4/sources/bing/sync",
    Fixture.obj [("job_name", VStr Fixture.JOB_ID)]);
   ("GET", "https://api.stitchdata.com/v4/sources/bar/extractions",
    VList [newer_job_record])].

Definition newer_job_env : Env := Fixture.mock_env newer_job_routes Fixture.now0.

(** The stage check in the words of the specification: an unset exit status
    stops the check, a status that is set and not zero fails the call. *)
Fixpoint stage_check_spec (modes : list string) (extraction : value)
  : outcome unit :=
  match modes with
  | [] => Ret tt
  | failure_mode :: rest =>
      status <~ item extraction (failure_mode ++ "_exit_status") ;;
      match status with
      | VNone => Ret tt
      | _ =>
          if negb (py_eqb status (VInt 0))
          then description <~ item extraction
                                   (failure_mode ++ "_description") ;;
               Raise (stage_failed failure_mode status description)
          else stage_check_spec rest extraction
      end
  end.

(** Extraction records by their three exit statuses; the tap stage carries
    a description. *)
Definition staged_record (discovery tap target : value) : value :=
  Fixture.obj [("job_name", VStr Fixture.JOB_ID);
               ("start_time", VStr "2023-02-19T03:11:48Z");
               ("discovery_exit_status", discovery);
               ("discovery_description", VNone);
               ("tap_exit_status", tap);
               ("tap_description", VStr "tap crashed");
               ("target_exit_status", target);
               ("target_description", VNone)].

(** The same record without any field of the target stage. *)
Definition record_without_target (discovery tap : value) : value :=
  Fixture.obj [("job_name", VStr Fixture.JOB_ID);
               ("start_time", VStr "2023-02-19T03:11:48Z");
               ("discovery_exit_status", discovery);
               ("discovery_description", VNone);
               ("tap_exit_status", tap);
               ("tap_description", VStr "tap crashed")].

(** *** Streams and their loads, as the load poll reads them *)

(** [streams[k]["metadata"]["selected"]] is true. *)
Definition is_selected (descr : value) : Prop :=
  exists metadata selected,
    item descr "metadata" = Ret metadata
    /\ item metadata "selected" = Ret selected
    /\ truthy selected = true.

(** [loads[descr["stream_name"]]]. *)
Definition load_of (loads : dict) (descr load : value) : Prop :=
  exists stream_name,
    item descr "stream_name" = Ret stream_name
    /\ subscript (VDict loads) stream_name = Ret load.

Definition error_state_set (load : value) : Prop :=
  exists error_state,
    item load "error_state" = Ret error_state /\ truthy error_state = true.

Definition error_state_unset (load : value) : Prop :=
  exists error_state,
    item load "error_state" = Ret error_state /\ truthy error_state = false.

(** No batch was loaded yet, or the last one strictly before [load_start]. *)
Definition loaded_before (load_start : datetime) (load : value) : Prop :=
  exists last_batch,
    item load "last_batch_loaded_at" = Ret last_batch
    /\ (last_batch = VNone
        \/ exists s loaded_at,
             last_batch = VStr s /\ strptime s = Some loaded_at
             /\ ordinal_us loaded_at < ordinal_us load_start).

(** The stream under key [k] is selected, has no error state, and its load
    is missing or older than the load phase: it holds the phase open. *)
Definition stream_incomplete (streams loads : dict) (load_start : datetime)
    (k : key) : Prop :=
  exists descr load,
    dict_get streams k = Some descr
    /\ is_selected descr
    /\ load_of loads descr load
    /\ error_state_unset load
    /\ loaded_before load_start load.

(** The end-to-end fixture with the load stamped at the very instant the
    load phase starts (the clock of the fixture stands at [now0]). *)
Definition at_load_start : string := "2023-02-19T03:12:00Z".

Definition loaded_at_load_start : Env :=
  Fixture.mock_env (Fixture.sync_routes at_load_start) Fixture.now0.

(** The call returned a result (it neither raised nor ran out of polls). *)
Definition returned {A} (r : outcome A * history) : bool :=
  match fst r with Ret _ => true | _ => false end.

(** The end-to-end fixture with a load that stays older than the load
    phase, however often it is polled. *)
Definition yesterday : string := "2023-02-18T23:59:59Z".

Definition never_loaded : Env :=
  Fixture.mock_env (Fixture.sync_routes yesterday) Fixture.now0.

(** *** Metadata entries of a stream schema *)

(** An entry seen as its breadcrumb and its [selected] mark. *)
Definition entry_view : Type := (list value * value)%type.

Definition has_view (entry : value) (v : entry_view) : Prop :=
  item entry "breadcrumb" = Ret (VList (fst v))
  /\ exists metadata,
       item entry "metadata" = Ret metadata
       /\ item metadata "selected" = Ret (snd v).

(** What the code tests: ["properties"] occurs in the breadcrumb, at any
    position, and the entry is marked selected. *)
Definition included (v : entry_view) : bool :=
  existsb (fun x => py_eqb x (VStr "properties")) (fst v) && truthy (snd v).

(** What the specification words: the breadcrumb begins with
    ["properties"], and the entry is marked selected. *)
Definition included_spec (v : entry_view) : bool :=
  match fst v with
  | first :: _ => py_eqb first (VStr "properties")
  | [] => false
  end && truthy (snd v).

(** [breadcrumb[1]]. *)
Definition property_name (v : entry_view) : value := nth 1 (fst v) VNone.

(** A breadcrumb that holds ["properties"], but not in front. *)
Definition nested_breadcrumb : entry_view :=
  ([VStr "items"; VStr "properties"], VBool true).

(** *** A data source with a selected and an unselected stream *)




(** *** A load poll in which every selected stream is settled *)




Definition is_warning (e : event) : Prop :=
  match e with EvLog WARNING _ => True | _ => False end.





(** *** Which failures a run can end in *)

(** The failure of the load-timeout site:
    [Load for source ... timed out after ... seconds]. *)
Definition is_load_timeout_failure (e : exn) : bool :=
  match e with
  | Failure (Lit s :: _) => String.eqb s "Load for source "
  | _ => false
  end.

Definition raised_load_timeout {A} (r : outcome A * history) : bool :=
  match fst r with
  | Raise e => is_load_timeout_failure e
  | _ => false
  end.

(** The exceptions Python itself raises, as opposed to [Failure]. *)
Definition builtin (e : exn) : Prop :=
  match e with Failure _ => False | _ => True end.

Definition no_load_timeout (e : exn) : Prop :=
  is_load_timeout_failure e = false.

(** Every exception the step / the run can raise satisfies [P]. *)
Definition may_raise {A} (P : exn -> Prop) (o : outcome A) : Prop :=
  forall e, o = Raise e -> P e.

Definition raises_only {A} (P : exn -> Prop) (m : M A) : Prop :=
  forall h e h', m h = (Raise e, h') -> P e.

(** The resource with another default load timeout. *)
Definition with_default_load_timeout (self : StitchResource) (v : pyobj)
  : StitchResource :=
  {| _account_id := _account_id self;
     _request_max_retries := _request_max_retries self;
     _default_poll_interval := _default_poll_interval self;
     _default_extraction_timeout := _default_extraction_timeout self;
     _default_load_timeout := v;
     _request_retry_delay := _request_retry_delay self |}.

(** A clock that stands still between sleeps and advances ten seconds with
    each of them, over the fixture with the load that never gets fresh. *)
Definition ticking : Env :=
  {| http := http never_loaded;
     clock := fun h =>
       Datetime (ordinal_us Fixture.now0
                 + 10000000 * Z.of_nat (count_sleeps h)) |}.

(** The entry of a result's schema mapping for one stream. *)
Definition schema_of (r : outcome StitchOutput * history) (k : key)
  : option value :=
  match fst r with
  | Ret out => dict_get (out_stream_schemas out) k
  | _ => None
  end.

(** *** What a response gives back *)

(** [response_json.get("links", {})]. *)
Definition links_of (fields : dict) : value :=
  match dict_get fields (KStr "links") with
  | Some l => l
  | None => VDict []
  end.

(** ["next" in response_json.get("links", {})], asked of dictionaries
    only. *)
Definition has_next (body : value) : outcome bool :=
  match body with
  | VDict fields => py_in (VStr "next") (links_of fields)
  | _ => Ret false
  end.

(** The value [make_request] hands back for a decoded body: the body itself
    unless it is a dictionary with a [data] field. *)
Definition payload (body : value) : value :=
  match body with
  | VDict fields =>
      match dict_get fields (KStr "data") with
      | Some d => d
      | None => body
      end
  | _ => body
  end.

Definition pagination_warning : event :=
  EvLog WARNING [Lit "Pagination not yet implemented"].

(** A server that drops the first [failures] requests of a call and then
    serves [routes]. *)
Definition flaky (failures : nat) (routes : list Fixture.route)
    (now : datetime) : Env :=
  {| http := fun h method url _ =>
       if (count_requests h <? failures)%nat
       then RequestException "Connection reset by peer"
       else Fixture.lookup_route routes method url;
     clock := fun _ => now |}.

(** One page of a paginated listing, and a body whose [links] is null. *)
Definition paged_sources : value :=
  Fixture.obj [("data", VList [Fixture.obj [("id", VInt 1)]]);
               ("links", Fixture.obj [("next", VStr "/v4/sources?page=2")])].

Definition null_links : value :=
  Fixture.obj [("data", VList []); ("links", VNone)].

(** *** Records by their key fields *)

(** The key a record sits under when it is indexed by [field]:
    [hash(x[field])]. *)
Definition key_of (field : string) (x : value) : option key :=
  match item x field with
  | Ret v => hash_key v
  | _ => None
  end.

Definition has_key (field : string) (k : key) (x : value) : bool :=
  match key_of field x with
  | Some k' => key_eqb k' k
  | None => false
  end.

(** The last record of a response array whose [field] hashes to [k]. *)
Definition last_with_key (field : string) (k : key) (xs : list value)
  : option value :=
  find (has_key field k) (rev xs).

(** The last load of a response array for a data source and a stream. *)
Definition last_load (source stream : key) (xs : list value) : option value :=
  find (fun x => has_key "source_name" source x
                 && has_key "stream_name" stream x) (rev xs).

(** [all_loads[source][stream]], if it is there. *)
Definition nested_get (all_loads : dict) (source stream : key)
  : option value :=
  match dict_get all_loads source with
  | Some (VDict by_stream) => dict_get by_stream stream
  | _ => None
  end.

(** Every value of the dictionary is a dictionary with at least one
    item. *)
Definition nested (all_loads : dict) : Prop :=
  forall source v,
    dict_get all_loads source = Some v ->
    exists item0 items, v = VDict (item0 :: items).

(** A response array in which every record has hashable [field]s. *)
Definition all_keyed (fields : list string) (xs : list value) : Prop :=
  forall x field, In x xs -> In field fields ->
                  exists k, key_of field x = Some k.

(** A stream array in which the name [qux] occurs twice, first selected and
    then not. *)
Definition repeated_stream_routes : list Fixture.route :=
  [("GET", "https://api.stitchdata.com/v4/sources/bing/streams",
    VList [Fixture.stream_descriptor "qux" true;
           Fixture.stream_descriptor "aux" true;
           Fixture.stream_descriptor "qux" false])].

(** An account whose only extraction belongs to another data source. *)
Definition first_run_routes : list Fixture.route :=
  [("POST", "https://api.stitchdata.com/v4/sources/bing/sync",
    Fixture.obj [("job_name", VStr Fixture.JOB_ID)]);
   ("GET", "https://api.stitchdata.com/v4/sources/bar/extractions",
    Fixture.get_extraction_response true)].


(** Loads of two data sources, with two loads of the stream [qux] of
    [bing]. *)
Definition mixed_loads : list value :=
  [Fixture.load_record "bing" "qux" (VStr yesterday) VNone;
   Fixture.load_record "other" "qux" (VStr Fixture.tomorrow) VNone;
   Fixture.load_record "bing" "aux" VNone VNone;
   Fixture.load_record "bing" "qux" (VStr Fixture.tomorrow) VNone].

Definition mixed_loads_env : Env :=
  Fixture.mock_env
    [("GET", "https://api.stitchdata.com/v4/sources/bar/loads",
      Fixture.obj [("data", VList mixed_loads)])] Fixture.now0.

(** The visit of the stream under [k] by the load poll raises nothing: the
    stream carries its [selected] mark, and if it is selected its load is
    there, with an error state that has a message or with a
    [last_batch_loaded_at] that is null or a timestamp. *)
Definition stream_passes (streams loads : dict) (load_start : datetime)
    (k : key) : Prop :=
  exists descr metadata selected,
    dict_get streams k = Some descr
    /\ item descr "metadata" = Ret metadata
    /\ item metadata "selected" = Ret selected
    /\ (truthy selected = true ->
        exists stream_name load error_state,
          item descr "stream_name" = Ret stream_name
          /\ subscript (VDict loads) stream_name = Ret load
          /\ item load "error_state" = Ret error_state
          /\ if truthy error_state
             then exists message, item error_state "message" = Ret message
             else exists last_batch stale,
                    item load "last_batch_loaded_at" = Ret last_batch
                    /\ load_is_stale last_batch load_start = Ret stale).

(** Two selected streams of which only the first has a load. *)
Definition missing_load_routes : list Fixture.route :=
  [("GET", "https://api.stitchdata.com/v4/sources/bar/loads",
    VList [Fixture.load_record "bing" "qux" (VStr Fixture.tomorrow) VNone])].

Definition two_selected_streams : dict :=
  [(KStr "qux", Fixture.stream_descriptor "qux" true);
   (KStr "aux", Fixture.stream_descriptor "aux" true)].

(** *** A server that answers *)






(** The end-to-end fixture with a tap stage that exited with status 1. *)
Definition failed_tap_record : value :=
  Fixture.obj [("source_id", VStr "bing");
               ("job_name", VStr Fixture.JOB_ID);
               ("start_time", VStr "2023-02-19T03:11:48Z");
               ("discovery_exit_status", VInt 0);
               ("discovery_description", VNone);
               ("tap_exit_status", VInt 1);
               ("tap_description", VStr "tap crashed");
               ("target_exit_status", VNone);
               ("target_description", VNone)].

Definition failed_tap_routes : list Fixture.route :=
  [("POST", "https://api.stitchdata.com/v4/sources/bing/sync",
    Fixture.obj [("job_name", VStr Fixture.JOB_ID)]);
   ("GET", "https://api.stitchdata.com/v4/sources/bar/extractions",
    VList [failed_tap_record]);
   ("GET", "https://api.stitchdata.com/v4/sources/bing/streams",
    Fixture.get_list_streams_response);
   ("GET", "https://api.stitchdata.com/v4/sources/bar/loads",
    Fixture.get_list_loads_response Fixture.tomorrow)].

Definition failed_tap : Env := Fixture.mock_env failed_tap_routes Fixture.now0.

(* ================================================================= *)
(** * Properties *)

(** ** The monad *)

Lemma bind_Ret {A B} (m : M A) (k : A -> M B) h a h' :
  m h = (Ret a, h') -> bind m k h = k a h'.
Proof. intros E. unfold bind. now rewrite E. Qed.

Lemma bind_Raise {A B} (m : M A) (k : A -> M B) h e h' :
  m h = (Raise e, h') -> bind m k h = (Raise e, h').
Proof. intros E. unfold bind. now rewrite E. Qed.

Lemma bind_lift_Ret {A B} (o : outcome A) (k : A -> M B) h a :
  o = Ret a -> bind (lift o) k h = k a h.
Proof. intros ->. reflexivity. Qed.

Lemma bind_lift {A B} (o : outcome A) (k : A -> M B) h :
  bind (lift o) k h
  = match o with
    | Ret a => k a h
    | Raise e => (Raise e, h)
    | OutOfFuel => (OutOfFuel, h)
    end.
Proof. unfold bind, lift. destruct o; reflexivity. Qed.

Lemma time_sleep_valid secs h :
  valid_sleep secs = true -> time_sleep secs h = (Ret tt, EvSleep secs :: h).
Proof.
  destruct secs as [[]| | |]; simpl; try discriminate; intros E;
    try rewrite E; reflexivity.
Qed.

(** ** [make_request] *)

Section MakeRequest.

Variable env : Env.
Variable self : StitchResource.


Lemma count_requests_failed_attempts delay method url data n : forall h,
  count_requests (failed_attempts env delay method url data n h)
  = (count_requests h + n)%nat.
Proof.
  induction n as [|n IH]; intros h; cbn [failed_attempts].
  - lia.
  - rewrite IH. unfold count_requests. cbn. lia.
Qed.

Lemma count_sleeps_failed_attempts delay method url data n : forall h,
  count_sleeps (failed_attempts env delay method url data n h)
  = (count_sleeps h + n)%nat.
Proof.
  induction n as [|n IH]; intros h; cbn [failed_attempts].
  - lia.
  - rewrite IH. unfold count_sleeps. cbn. lia.
Qed.

End MakeRequest.
Lemma time_sleep_returns_or_raises secs h :
  fst (time_sleep secs h) <> OutOfFuel.
Proof.
  unfold time_sleep.
  destruct secs as [[| | z | | |] | f | |]; try (cbn; discriminate).
  - destruct (0 <=? z); cbn; discriminate.
  - destruct (PrimFloat.leb 0 f); cbn; discriminate.
Qed.

Lemma py_in_returns_or_raises x c : py_in x c <> OutOfFuel.
Proof.
  unfold py_in. destruct c; try discriminate.
  - destruct x; discriminate.
  - destruct (hash_key x); discriminate.
Qed.

Section MakeRequestTotal.

Variable env : Env.
Variable self : StitchResource.

(** The fuel [make_request] gives its loop is enough: the bound on polls
    never cuts a request short. *)
Lemma make_request_loop_total method url data : forall n fuel retries h,
  _request_max_retries self - retries <= Z.of_nat n ->
  (n < fuel)%nat ->
  fst (make_request_loop env self fuel method url data retries h)
  <> OutOfFuel.
Proof.
  induction n as [|n IH]; intros fuel retries h Hn Hlt;
    (destruct fuel as [|fuel]; [lia|]); cbn [make_request_loop];
    destruct (Z.ltb_spec retries (_request_max_retries self)) as [Hr|Hr];
    try lia; try (cbn; discriminate).
  unfold bind at 1. unfold requests_request.
  destruct (http env h method url data) as [e | body].
  - unfold bind at 1. unfold log, emit. unfold bind at 1.
    pose proof (time_sleep_returns_or_raises (_request_retry_delay self)
      (EvLog ERROR [Lit "Request to Stitch API at <"; FStr url;
                    Lit "> failed: "; Lit e]
       :: EvRequest method url data :: h)) as Hs.
    destruct (time_sleep (_request_retry_delay self) _) as [[[] | e' |] h1];
      [ | cbn; discriminate | now destruct Hs].
    apply IH; lia.
  - destruct body; try (cbn; discriminate).
    rewrite bind_lift.
    match goal with
    | |- context [py_in ?x ?c] =>
        pose proof (py_in_returns_or_raises x c) as Hin;
        destruct (py_in x c) as [[] | e' |]
    end; [cbn; discriminate .. | contradiction].
Qed.

Lemma make_request_total method endpoint data h :
  fst (make_request env self method endpoint data h) <> OutOfFuel.
Proof.
  unfold make_request.
  apply (make_request_loop_total _ _ _
           (Z.to_nat (_request_max_retries self))); lia.
Qed.

End MakeRequestTotal.



(** ** Phase A: the extraction poll *)

Lemma item_truthy v name x : item v name = Ret x -> truthy v = true.
Proof.
  unfold item, subscript. destruct v as [| | | s | l | d]; try discriminate.
  destruct d; [cbn; discriminate | reflexivity].
Qed.

(** When the job names differ the exit test goes on to compare the record's
    [start_time], a JSON value, with a datetime: a [TypeError], whatever
    the value is. *)
Lemma extraction_observed_other_job extraction resp start observed started
    start_time :
  item extraction "job_name" = Ret observed ->
  item resp "job_name" = Ret started ->
  py_eqb observed started = false ->
  item extraction "start_time" = Ret start_time ->
  extraction_observed extraction resp start = Raise TypeError.
Proof.
  intros E1 E2 E3 E4. unfold extraction_observed.
  rewrite E1; cbn [obind]. rewrite E2; cbn [obind]. rewrite E3.
  rewrite E4; cbn [obind]. reflexivity.
Qed.

(** C7.  A poll that fetches a record whose [job_name] equals the one the
    start request returned leaves the loop at once with that record: the
    [start_time] is logged but never compared, so it may be anything, also
    earlier than the start of the call; no clock is read and nothing
    sleeps. *)
Theorem extraction_poll_exits_on_job_name env self fuel data_source_id
    poll_interval extraction_timeout extraction_start replication_response
    h extraction h1 observed started start_time :
  get_extractions env self (Some data_source_id) h = (Ret extraction, h1) ->
  item extraction "job_name" = Ret observed ->
  item extraction "start_time" = Ret start_time ->
  item replication_response "job_name" = Ret started ->
  py_eqb observed started = true ->
  extraction_loop env self (S fuel) data_source_id poll_interval
    extraction_timeout extraction_start replication_response h
  = (Ret extraction,
     EvLog INFO (polled_extractions data_source_id observed start_time) :: h1).
Proof.
  intros Hget Hjob Hstart Hresp Heq. cbn [extraction_loop].
  rewrite (bind_Ret _ _ _ _ _ Hget).
  rewrite (item_truthy _ _ _ Hjob). cbn [negb].
  rewrite (bind_lift_Ret _ _ _ _ Hjob), (bind_lift_Ret _ _ _ _ Hstart).
  unfold log, emit. unfold bind at 1.
  assert (Hobs : extraction_observed extraction replication_response
                   extraction_start = Ret true).
  { unfold extraction_observed. rewrite Hjob; cbn [obind].
    rewrite Hresp; cbn [obind]. now rewrite Heq. }
  rewrite (bind_lift_Ret _ _ _ _ Hobs). reflexivity.
Qed.

Lemma extraction_poll_exits_on_job_name_witness :
  extraction_loop Fixture.mock_sync_requests Fixture.resource 1 "bing"
    (OFloat 10%float) ONone Fixture.now0
    (Fixture.obj [("job_name", VStr "baz")])
    [EvRequest "POST" "https://api.stitchdata.com/v4/sources/bing/sync" None]
  = (Ret (Fixture.extraction_record "bing"),
     [EvLog INFO (polled_extractions "bing" (VStr "baz")
                    (VStr "2023-02-19T03:11:48Z"));
      EvRequest "GET" "https://api.stitchdata.com/v4/sources/bar/extractions"
                None;
      EvRequest "POST" "https://api.stitchdata.com/v4/sources/bing/sync"
                None]).
Proof.
  apply (extraction_poll_exits_on_job_name Fixture.mock_sync_requests
           Fixture.resource 0 "bing" (OFloat 10%float) ONone Fixture.now0
           (Fixture.obj [("job_name", VStr "baz")])
           [EvRequest "POST"
              "https://api.stitchdata.com/v4/sources/bing/sync" None]
           (Fixture.extraction_record "bing")
           [EvRequest "GET"
              "https://api.stitchdata.com/v4/sources/bar/extractions" None;
            EvRequest "POST"
              "https://api.stitchdata.com/v4/sources/bing/sync" None]
           (VStr "baz") (VStr "baz") (VStr "2023-02-19T03:11:48Z"));
    vm_compute; reflexivity.
Defined.

(** C1.  The newer-job tie-break as the code runs it: the start request
    returns job [baz], the poll finds job [newer] with a [start_time] a day
    after the start of the call, and the comparison of that string with the
    datetime [extraction_start] raises [TypeError]; the loop neither exits
    to the stage check nor polls again. *)
Theorem newer_job_poll_raises_TypeError :
  strptime Fixture.tomorrow = Some (Datetime 63812459520000000)
  /\ datetime_leb Fixture.now0 (Datetime 63812459520000000) = true
  /\ start_replication_job_and_poll newer_job_env Fixture.resource 5 "bing"
       ONone ONone ONone []
     = (Raise TypeError,
        [EvLog INFO (polled_extractions "bing" (VStr "newer")
                       (VStr Fixture.tomorrow));
         EvRequest "GET"
           "https://api.stitchdata.com/v4/sources/bar/extractions" None;
         EvRequest "POST" "https://api.stitchdata.com/v4/sources/bing/sync"
           None;
         EvNow Fixture.now0]).
Proof. repeat split; vm_compute; reflexivity. Qed.

(** ** The stage check *)

Lemma truthy_not_zero v : truthy v = true -> py_eqb v (VInt 0) = false.
Proof.
  destruct v as [| b | z | s | l | d]; cbn; try reflexivity.
  - intros ->. reflexivity.
  - now intros E%negb_true_iff.
Qed.

Lemma stage_check_skips extraction pre rest :
  (forall m, In m pre ->
     exists v, item extraction (m ++ "_exit_status") = Ret v
               /\ truthy v = false) ->
  stage_check (pre ++ rest)%list extraction = stage_check rest extraction.
Proof.
  induction pre as [|m pre IH]; intros H; [reflexivity|].
  cbn [app stage_check].
  destruct (H m (or_introl eq_refl)) as (v & Ev & Tv).
  rewrite Ev; cbn [obind]. rewrite Tv; cbn [negb].
  apply IH. intros m' Hm'. apply H. now right.
Qed.

(** C2, as the code has it.  The stages are examined in the order
    discovery, tap, target.  A stage whose exit status is unset or zero is
    passed over and the next stage is examined; the first stage whose status
    is set and not zero fails the call with a failure that names the stage,
    the status and the description, and nothing after it is looked at (the
    later stages need not even be present).  When every status is unset or
    zero the check passes.  For statuses (0, 1, unset) the failure names
    tap. *)
Theorem stage_check_fails_at_first_nonzero_status extraction :
  (forall pre failure_mode post status description,
     failure_modes = (pre ++ failure_mode :: post)%list ->
     (forall m, In m pre ->
        exists v, item extraction (m ++ "_exit_status") = Ret v
                  /\ truthy v = false) ->
     item extraction (failure_mode ++ "_exit_status") = Ret status ->
     truthy status = true ->
     item extraction (failure_mode ++ "_description") = Ret description ->
     stage_check failure_modes extraction
     = Raise (stage_failed failure_mode status description))
  /\ ((forall m, In m failure_modes ->
         exists v, item extraction (m ++ "_exit_status") = Ret v
                   /\ truthy v = false) ->
      stage_check failure_modes extraction = Ret tt)
  /\ (forall description,
        item extraction "discovery_exit_status" = Ret (VInt 0) ->
        item extraction "tap_exit_status" = Ret (VInt 1) ->
        item extraction "tap_description" = Ret description ->
        stage_check failure_modes extraction
        = Raise (Failure [FStr "Tap"; Lit " failed with exit status ";
                          FVal (VInt 1); Lit ": "; FVal description])).
Proof.
  assert (first_failure :
    forall pre failure_mode post status description,
      (forall m, In m pre ->
         exists v, item extraction (m ++ "_exit_status") = Ret v
                   /\ truthy v = false) ->
      item extraction (failure_mode ++ "_exit_status") = Ret status ->
      truthy status = true ->
      item extraction (failure_mode ++ "_description") = Ret description ->
      stage_check (pre ++ failure_mode :: post)%list extraction
      = Raise (stage_failed failure_mode status description)).
  { intros pre failure_mode post status description Hpre Hs Ht Hd.
    rewrite (stage_check_skips _ _ _ Hpre). cbn [stage_check].
    rewrite Hs; cbn [obind]. rewrite Ht; cbn [negb].
    rewrite (truthy_not_zero _ Ht); cbn [negb].
    rewrite Hd. reflexivity. }
  split; [|split].
  - intros pre failure_mode post status description -> Hpre Hs Ht Hd.
    now apply first_failure.
  - intros H. rewrite <- (app_nil_r failure_modes).
    now rewrite (stage_check_skips _ _ _ H).
  - intros description Hd Ht Hdesc.
    apply (first_failure ["discovery"] "tap" ["target"] (VInt 1) description);
      auto.
    intros m [<-|[]]. exists (VInt 0). split; [exact Hd | reflexivity].
Qed.

Lemma stage_check_fails_at_first_nonzero_status_witness :
  stage_check failure_modes (record_without_target (VInt 0) (VInt 1))
  = Raise (Failure [FStr "Tap"; Lit " failed with exit status ";
                    FVal (VInt 1); Lit ": "; FVal (VStr "tap crashed")]).
Proof.
  apply (proj2 (proj2 (stage_check_fails_at_first_nonzero_status
                         (record_without_target (VInt 0) (VInt 1))))
           (VStr "tap crashed")); reflexivity.
Defined.

(** C2, as the claim words it, fails on a record whose discovery status is
    unset and whose tap status is 1: read with the claim the check stops at
    discovery and passes, while the code goes on to tap and fails there. *)
Lemma unset_stage_does_not_stop_the_check :
  item (staged_record VNone (VInt 1) VNone) "discovery_exit_status"
  = Ret VNone
  /\ stage_check_spec failure_modes (staged_record VNone (VInt 1) VNone)
     = Ret tt
  /\ stage_check failure_modes (staged_record VNone (VInt 1) VNone)
     = Raise (stage_failed "tap" (VInt 1) (VStr "tap crashed")).
Proof. repeat split. Qed.

(** ** Phase B: the load poll *)

(** One step of a run that is known to return: the lifted step returned. *)
Ltac lift_step H x E :=
  rewrite bind_lift in H;
  lazymatch type of H with
  | match ?o with Ret _ => _ | Raise _ => _ | OutOfFuel => _ end = _ =>
      destruct o as [x | ? |] eqn:E; [ | discriminate H | discriminate H]
  end.

Lemma subscript_key_value d k :
  subscript (VDict d) (key_value k)
  = match dict_get d k with
    | Some x => Ret x
    | None => Raise (KeyError k)
    end.
Proof. destruct k; reflexivity. Qed.

Lemma load_is_stale_spec last_batch load_start b :
  load_is_stale last_batch load_start = Ret b ->
  (b = true <->
   (last_batch = VNone
    \/ exists s loaded_at,
         last_batch = VStr s /\ strptime s = Some loaded_at
         /\ ordinal_us loaded_at < ordinal_us load_start)).
Proof.
  unfold load_is_stale.
  destruct last_batch as [| ? | ? | s | ? | ?]; try discriminate.
  - intros [= <-]. split; auto.
  - destruct (strptime s) as [d|] eqn:Ep; [|discriminate].
    unfold py_lt. cbn [temporal_compare obind].
    destruct (Z.compare_spec (ordinal_us d) (ordinal_us load_start));
      intros [= <-]; (split; [intros; try discriminate | ]).
    + intros [[=] | (s' & d' & [= <-] & Ep' & Hlt)].
      rewrite Ep in Ep'. injection Ep' as <-. lia.
    + right. eauto.
    + reflexivity.
    + intros [[=] | (s' & d' & [= <-] & Ep' & Hlt)].
      rewrite Ep in Ep'. injection Ep' as <-. lia.
Qed.

Section LoadPoll.

Variables streams loads : dict.
Variable load_start : datetime.

Lemma not_selected_not_incomplete k descr metadata selected :
  dict_get streams k = Some descr ->
  item descr "metadata" = Ret metadata ->
  item metadata "selected" = Ret selected ->
  truthy selected = false ->
  ~ stream_incomplete streams loads load_start k.
Proof.
  intros Eg Em Es Ts (descr' & load & Eg' & (md & sel & Em' & Es' & Ts') & _).
  rewrite Eg in Eg'. injection Eg' as <-.
  rewrite Em in Em'. injection Em' as <-.
  rewrite Es in Es'. injection Es' as <-. congruence.
Qed.

Lemma stream_incomplete_inv k descr stream_name load error_state :
  dict_get streams k = Some descr ->
  item descr "stream_name" = Ret stream_name ->
  subscript (VDict loads) stream_name = Ret load ->
  item load "error_state" = Ret error_state ->
  stream_incomplete streams loads load_start k ->
  truthy error_state = false /\ loaded_before load_start load.
Proof.
  intros Eg En El Ee
    (descr' & load' & Eg' & _ & (name & En' & El') & (es & Ee' & Te) & Hb).
  rewrite Eg in Eg'. injection Eg' as <-.
  rewrite En in En'. injection En' as <-.
  rewrite El in El'. injection El' as <-.
  rewrite Ee in Ee'. injection Ee' as <-. auto.
Qed.

Lemma visit_settled (acc : bool) k rest :
  ~ stream_incomplete streams loads load_start k ->
  (acc = true /\
   (forall k', In k' rest -> ~ stream_incomplete streams loads load_start k'))
  <->
  (acc = true /\
   (forall k', In k' (k :: rest) ->
               ~ stream_incomplete streams loads load_start k')).
Proof.
  intros Hk. split; intros [Ha Hr]; split; auto.
  - intros k' [<-|Hin]; auto.
  - intros k' Hin. apply Hr. now right.
Qed.

Lemma visit_incomplete (acc : bool) k rest :
  stream_incomplete streams loads load_start k ->
  (false = true /\
   (forall k', In k' rest -> ~ stream_incomplete streams loads load_start k'))
  <->
  (acc = true /\
   (forall k', In k' (k :: rest) ->
               ~ stream_incomplete streams loads load_start k')).
Proof.
  intros Hk. split; intros [Ha Hr]; [discriminate|].
  exfalso. apply (Hr k); [now left | exact Hk].
Qed.

(** The [for] loop of a poll leaves [loading_complete] true exactly when it
    was true before and no stream it visited is incomplete. *)
Lemma check_streams_complete : forall names acc h b h',
  check_streams names streams loads load_start acc h = (Ret b, h') ->
  (b = true <->
   acc = true
   /\ forall k, In k names -> ~ stream_incomplete streams loads load_start k).
Proof.
  induction names as [|k rest IH]; intros acc h b h' H.
  - cbn in H. injection H as <- _. split; [intros ->; split; auto|tauto].
  - cbn [check_streams] in H.
    lift_step H descr Ed. rewrite subscript_key_value in Ed.
    destruct (dict_get streams k) as [descr0|] eqn:Eg; [|discriminate].
    injection Ed as ->.
    lift_step H metadata Em. lift_step H selected Es.
    destruct (truthy selected) eqn:Ts.
    + lift_step H stream_name En. lift_step H found Ef.
      destruct found; cbn [negb] in H; [|discriminate].
      lift_step H load El. lift_step H error_state Ee.
      destruct (truthy error_state) eqn:Te.
      * lift_step H message Emsg. unfold bind at 1 in H. cbn in H.
        apply IH in H. rewrite H. apply visit_settled.
        intros Hk.
        destruct (stream_incomplete_inv _ _ _ _ _ Eg En El Ee Hk). congruence.
      * lift_step H last_batch Eb. lift_step H stale Est.
        apply IH in H. rewrite H.
        pose proof (load_is_stale_spec _ _ _ Est) as Hst.
        destruct stale.
        -- apply visit_incomplete.
           exists descr, load. repeat split; eauto.
           ++ exists metadata, selected; auto.
           ++ exists stream_name; auto.
           ++ exists error_state; auto.
           ++ exists last_batch. split; auto. now apply Hst.
        -- apply visit_settled. intros Hk.
           destruct (stream_incomplete_inv _ _ _ _ _ Eg En El Ee Hk)
             as [_ (lb & Eb' & Hlb)].
           rewrite Eb in Eb'. injection Eb' as <-.
           apply Hst in Hlb. discriminate.
    + apply IH in H. rewrite H. apply visit_settled.
      eapply not_selected_not_incomplete; eauto.
Qed.

End LoadPoll.

Lemma bind_Ret_inv {A B} (m : M A) (k : A -> M B) h b h' :
  bind m k h = (Ret b, h') ->
  exists a h1, m h = (Ret a, h1) /\ k a h1 = (Ret b, h').
Proof.
  unfold bind. destruct (m h) as [[a | e |] h1]; try discriminate. eauto.
Qed.

(** A load loop that returns has just seen a poll in which no stream is
    incomplete, and returns the loads of that poll. *)
Lemma load_loop_complete env self streams load_start data_source_id
    poll_interval load_timeout : forall fuel h loads h',
  load_loop env self fuel data_source_id poll_interval load_timeout streams
            load_start h = (Ret loads, h') ->
  forall k, In k (dict_keys streams) ->
            ~ stream_incomplete streams loads load_start k.
Proof.
  induction fuel as [|fuel IH]; intros h loads h' H; [discriminate|].
  cbn [load_loop] in H.
  apply bind_Ret_inv in H as (polled & h1 & _ & H).
  destruct polled as [|kv polled]; [discriminate|].
  apply bind_Ret_inv in H as (? & h2 & _ & H).
  apply bind_Ret_inv in H as (complete & h3 & Hc & H).
  destruct complete; cbn [negb] in H.
  - injection H as <- _.
    apply check_streams_complete in Hc. now apply Hc.
  - apply bind_Ret_inv in H as (late & h4 & _ & H).
    destruct late; [discriminate|].
    apply bind_Ret_inv in H as (? & h5 & _ & H). eauto.
Qed.

(** C3, as the code has it.  A selected stream without error state holds the
    load phase open exactly when its [last_batch_loaded_at] is absent or
    strictly before [load_start]; a load stamped at [load_start] itself
    counts as loaded.  A poll ends with [loading_complete] true exactly when
    no stream is incomplete in this sense, and the load loop returns only
    from such a poll. *)
Theorem load_incomplete_iff_absent_or_before streams loads load_start :
  load_is_stale VNone load_start = Ret true
  /\ (forall s loaded_at,
        strptime s = Some loaded_at ->
        load_is_stale (VStr s) load_start
        = Ret (ordinal_us loaded_at <? ordinal_us load_start))
  /\ (forall h b h',
        check_streams (dict_keys streams) streams loads load_start true h
        = (Ret b, h') ->
        (b = true <->
         forall k, In k (dict_keys streams) ->
                   ~ stream_incomplete streams loads load_start k))
  /\ (forall env self fuel data_source_id poll_interval load_timeout h h',
        load_loop env self fuel data_source_id poll_interval load_timeout
                  streams load_start h = (Ret loads, h') ->
        forall k, In k (dict_keys streams) ->
                  ~ stream_incomplete streams loads load_start k).
Proof.
  split; [reflexivity|]. split; [|split].
  - intros s loaded_at Ep. unfold load_is_stale. rewrite Ep.
    unfold py_lt. cbn [temporal_compare obind]. rewrite Z.ltb_compare.
    now destruct (ordinal_us loaded_at ?= ordinal_us load_start).
  - intros h b h' H. apply check_streams_complete in H. rewrite H. tauto.
  - intros env self fuel data_source_id poll_interval load_timeout h h' H.
    eapply load_loop_complete; eauto.
Qed.

Lemma load_incomplete_iff_absent_or_before_witness :
  load_is_stale (VStr "2023-02-18T23:59:59Z") Fixture.now0 = Ret true
  /\ load_is_stale (VStr at_load_start) Fixture.now0 = Ret false.
Proof.
  split.
  - apply (proj1 (proj2 (load_incomplete_iff_absent_or_before
                           [] [] Fixture.now0))
             "2023-02-18T23:59:59Z" (Datetime 63812361599000000)).
    vm_compute. reflexivity.
  - apply (proj1 (proj2 (load_incomplete_iff_absent_or_before
                           [] [] Fixture.now0))
             at_load_start Fixture.now0).
    vm_compute. reflexivity.
Defined.

(** C3, as the claim words it, fails for a load stamped exactly at the
    start of the load phase: that stamp is not strictly after [load_start],
    yet the stream is not held incomplete and the call returns from its
    first load poll. *)
Lemma load_at_load_start_is_complete :
  strptime at_load_start = Some Fixture.now0
  /\ clock loaded_at_load_start [] = Fixture.now0
  /\ load_is_stale (VStr at_load_start) Fixture.now0 = Ret false
  /\ returned (start_replication_job_and_poll loaded_at_load_start
                 Fixture.resource 1 "bing" ONone ONone ONone []) = true.
Proof. repeat split; vm_compute; reflexivity. Qed.

(** With a number for a timeout the elapsed time, a timedelta, is compared
    with that number: the clock is read and the comparison raises. *)
Lemma timeout_exceeded_float env f start h :
  obj_truthy (OFloat f) = true ->
  timeout_exceeded env (OFloat f) start h
  = (Raise TypeError, EvNow (clock env h) :: h).
Proof. intros E. unfold timeout_exceeded. rewrite E. reflexivity. Qed.

(** C4.  With [load_timeout = 5.0] and a load that never gets fresh, the
    first load poll finds the stream incomplete, reads the clock and
    compares the elapsed timedelta with the float 5.0: the call ends in a
    [TypeError] at once, before any sleep, not in a load-timeout failure
    after five seconds.  Without a timeout the same call keeps polling. *)
Theorem load_timeout_in_seconds_raises_TypeError :
  fst (start_replication_job_and_poll never_loaded Fixture.resource 3 "bing"
         ONone ONone (OFloat 5%float) []) = Raise TypeError
  /\ count_sleeps
       (snd (start_replication_job_and_poll never_loaded Fixture.resource 3
               "bing" ONone ONone (OFloat 5%float) [])) = 0%nat
  /\ fst (start_replication_job_and_poll never_loaded Fixture.resource 3
            "bing" ONone ONone ONone []) = OutOfFuel
  /\ count_sleeps
       (snd (start_replication_job_and_poll never_loaded Fixture.resource 3
               "bing" ONone ONone ONone [])) = 3%nat.
Proof. repeat split; vm_compute; reflexivity. Qed.

(** ** [get_stream_schema] *)

Lemma second_of_breadcrumb breadcrumb :
  (2 <= List.length breadcrumb)%nat ->
  subscript (VList breadcrumb) (VInt 1) = Ret (nth 1 breadcrumb VNone).
Proof.
  destruct breadcrumb as [|a [|b rest]]; cbn [List.length]; try lia.
  intros _. cbn [subscript]. unfold list_index.
  cbn [List.length]. replace (1 <? 0) with false by reflexivity.
  replace ((0 <=? 1) && (1 <? Z.of_nat (S (S (List.length rest)))))
    with true by (symmetry; apply andb_true_iff; split;
                  [reflexivity | apply Z.ltb_lt; lia]).
  reflexivity.
Qed.

Lemma selected_properties_filter : forall entries views,
  Forall2 has_view entries views ->
  (forall v, In v views -> included v = true ->
             (2 <= List.length (fst v))%nat) ->
  selected_properties entries
  = Ret (map property_name (filter included views)).
Proof.
  induction 1 as [|entry v entries views (Eb & md & Em & Es) _ IH];
    intros Hlen; [reflexivity|].
  cbn [selected_properties filter].
  rewrite Eb; cbn [obind py_in].
  unfold included at 1.
  destruct (existsb _ (fst v)) eqn:Ein; cbn [andb obind].
  - rewrite Em; cbn [obind]. rewrite Es; cbn [obind].
    destruct (truthy (snd v)) eqn:Tv.
    + rewrite second_of_breadcrumb.
      * cbn [obind]. rewrite IH; [reflexivity|].
        intros v' Hin. apply Hlen. now right.
      * apply Hlen; [now left|]. unfold included. now rewrite Ein, Tv.
    + apply IH. intros v' Hin. apply Hlen. now right.
  - apply IH. intros v' Hin. apply Hlen. now right.
Qed.

(** C9, as the code has it.  The resolved schema lists, in the order of the
    response's metadata array, the second breadcrumb element of every entry
    whose breadcrumb contains ["properties"] (at any position) and whose
    metadata marks it selected.  For the end-to-end fixture the schema of
    stream [qux] is [author], [description], in [get_stream_schema] and in
    the schema mapping of the whole call. *)
Theorem schema_keeps_selected_property_entries :
  (forall entries views,
     Forall2 has_view entries views ->
     (forall v, In v views -> included v = true ->
                (2 <= List.length (fst v))%nat) ->
     selected_properties entries
     = Ret (map property_name (filter included views)))
  /\ fst (get_stream_schema Fixture.mock_sync_requests Fixture.resource
            "bing" (KStr "qux") [])
     = Ret (VDict [(KStr "stream_id", VStr "qux");
                   (KStr "schema",
                    VList [VStr "author"; VStr "description"])])
  /\ schema_of (start_replication_job_and_poll Fixture.mock_sync_requests
                  Fixture.resource 1 "bing" ONone ONone ONone [])
               (KStr "qux")
     = Some (VDict [(KStr "stream_id", VStr "qux");
                    (KStr "schema",
                     VList [VStr "author"; VStr "description"])]).
Proof.
  split; [exact selected_properties_filter | split; vm_compute; reflexivity].
Qed.

Lemma schema_keeps_selected_property_entries_witness :
  selected_properties
    [Fixture.property_entry [] true;
     Fixture.property_entry ["properties"; "author"] true;
     Fixture.property_entry ["properties"; "hidden"] false;
     Fixture.property_entry ["properties"; "description"] true]
  = Ret [VStr "author"; VStr "description"].
Proof.
  apply (proj1 schema_keeps_selected_property_entries
           _ [([], VBool true);
              ([VStr "properties"; VStr "author"], VBool true);
              ([VStr "properties"; VStr "hidden"], VBool false);
              ([VStr "properties"; VStr "description"], VBool true)]).
  - repeat constructor;
      (eexists; split; [reflexivity | reflexivity]).
  - intros v [<-|[<-|[<-|[<-|[]]]]]; cbn; intros; try discriminate; lia.
Defined.

(** C9, as the claim words it, fails on an entry whose breadcrumb holds
    ["properties"] without beginning with it: the entry is selected, the
    specification's test leaves it out, the code takes it in (and reports
    the second breadcrumb element as the property name). *)
Lemma breadcrumb_need_not_begin_with_properties :
  has_view (Fixture.property_entry ["items"; "properties"] true)
           nested_breadcrumb
  /\ included_spec nested_breadcrumb = false
  /\ selected_properties
       [Fixture.property_entry ["items"; "properties"] true]
     = Ret [VStr "properties"].
Proof.
  split; [|split; reflexivity].
  split; [reflexivity|]. eexists. split; reflexivity.
Qed.


Lemma subscript_dict_in d name load :
  subscript (VDict d) name = Ret load -> py_in name (VDict d) = Ret true.
Proof.
  cbn [subscript py_in]. destruct (hash_key name) as [k|]; [|discriminate].
  unfold dict_has. destruct (dict_get d k); [reflexivity|discriminate].
Qed.

Section SettledPoll.

Variables streams loads : dict.
Variable load_start : datetime.



End SettledPoll.



(** ** The result: which streams its mappings hold *)

Lemma key_eqb_eq a b : key_eqb a b = true <-> a = b.
Proof.
  destruct a, b; cbn; split; try discriminate; try reflexivity.
  - now intros ->%Z.eqb_eq.
  - intros [= ->]. apply Z.eqb_refl.
  - now intros ->%String.eqb_eq.
  - intros [= ->]. apply String.eqb_refl.
Qed.

Lemma dict_get_set d k v q :
  dict_get (dict_set d k v) q
  = if key_eqb k q then Some v else dict_get d q.
Proof.
  induction d as [|[k' v'] d IH]; cbn [dict_set dict_get]; [reflexivity|].
  destruct (key_eqb k' k) eqn:E.
  - apply key_eqb_eq in E as ->. cbn [dict_get].
    now destruct (key_eqb k q).
  - cbn [dict_get]. rewrite IH.
    destruct (key_eqb k' q) eqn:E'; [|reflexivity].
    apply key_eqb_eq in E' as ->.
    destruct (key_eqb k q) eqn:E''; [|reflexivity].
    apply key_eqb_eq in E'' as ->.
    assert (key_eqb q q = true) by now apply key_eqb_eq. congruence.
Qed.












(** ** Which failures a run can end in *)

Lemma may_raise_Ret {A} P (a : A) : may_raise P (Ret a).
Proof. intros e [=]. Qed.

Lemma may_raise_OutOfFuel {A} P : may_raise P (@OutOfFuel A).
Proof. intros e [=]. Qed.

Lemma may_raise_Raise {A} (P : exn -> Prop) e : P e -> may_raise P (@Raise A e).
Proof. intros HP e' [= <-]. exact HP. Qed.

Lemma may_raise_obind {A B} P (o : outcome A) (k : A -> outcome B) :
  may_raise P o -> (forall a, may_raise P (k a)) -> may_raise P (obind o k).
Proof.
  intros Ho Hk e. destruct o as [a | e' |]; cbn [obind].
  - apply Hk.
  - intros [= <-]. now apply Ho.
  - discriminate.
Qed.

Lemma may_raise_weaken {A} (P Q : exn -> Prop) (o : outcome A) :
  (forall e, P e -> Q e) -> may_raise P o -> may_raise Q o.
Proof. intros HPQ Ho e He. auto. Qed.

(** Steps without history: goals [may_raise builtin _]. *)
Ltac pure_step :=
  repeat first
    [ apply may_raise_Ret
    | apply may_raise_OutOfFuel
    | apply may_raise_Raise; exact I
    | apply may_raise_obind; [ | intros ? ]
    | match goal with
      | |- may_raise _ (match ?x with _ => _ end) => destruct x
      | |- may_raise _ (if ?b then _ else _) => destruct b
      end
    | assumption ].

Lemma list_index_builtin l z : may_raise builtin (list_index l z).
Proof. unfold list_index. pure_step. Qed.

Lemma subscript_builtin v i : may_raise builtin (subscript v i).
Proof.
  unfold subscript.
  destruct v; try (apply may_raise_Raise; exact I);
    destruct i; try (apply may_raise_Raise; exact I);
    try apply list_index_builtin; cbn [hash_key]; pure_step.
Qed.

Lemma item_builtin v name : may_raise builtin (item v name).
Proof. apply subscript_builtin. Qed.

Lemma py_in_builtin x c : may_raise builtin (py_in x c).
Proof. unfold py_in. pure_step. Qed.

Lemma py_iter_builtin v : may_raise builtin (py_iter v).
Proof. unfold py_iter. pure_step. Qed.

Lemma temporal_compare_builtin a b : may_raise builtin (temporal_compare a b).
Proof. unfold temporal_compare. pure_step. Qed.

Lemma py_gt_builtin a b : may_raise builtin (py_gt a b).
Proof. unfold py_gt. pure_step. apply temporal_compare_builtin. Qed.

Lemma py_ge_builtin a b : may_raise builtin (py_ge a b).
Proof. unfold py_ge. pure_step. apply temporal_compare_builtin. Qed.

Lemma py_lt_builtin a b : may_raise builtin (py_lt a b).
Proof. unfold py_lt. pure_step. apply temporal_compare_builtin. Qed.

Lemma dict_by_builtin field : forall xs acc,
  may_raise builtin (dict_by field xs acc).
Proof.
  induction xs as [|x xs IH]; intros acc; cbn [dict_by]; pure_step;
    auto using item_builtin.
Qed.

Lemma selected_properties_builtin : forall metadata,
  may_raise builtin (selected_properties metadata).
Proof.
  induction metadata as [|p rest IH]; cbn [selected_properties]; pure_step;
    auto using item_builtin, py_in_builtin, subscript_builtin.
Qed.

Lemma nest_loads_builtin : forall loads all_loads,
  may_raise builtin (nest_loads loads all_loads).
Proof.
  induction loads as [|l rest IH]; intros all_loads; cbn [nest_loads].
  - pure_step.
  - apply may_raise_obind; [apply item_builtin|]. intros source_name.
    destruct (hash_key source_name) as [source|]; [|pure_step].
    cbn zeta.
    destruct (dict_get _ source) as [[| | | | |by_stream]|]; pure_step;
      auto using item_builtin.
Qed.

Lemma extraction_observed_builtin e r s :
  may_raise builtin (extraction_observed e r s).
Proof.
  unfold extraction_observed. pure_step;
    auto using item_builtin, py_ge_builtin.
Qed.

Lemma load_is_stale_builtin v s : may_raise builtin (load_is_stale v s).
Proof. unfold load_is_stale. pure_step. Qed.

Lemma builtin_no_load_timeout e : builtin e -> no_load_timeout e.
Proof. destruct e; cbn; [contradiction | reflexivity ..]. Qed.

Lemma stage_check_no_load_timeout : forall modes extraction,
  may_raise no_load_timeout (stage_check modes extraction).
Proof.
  induction modes as [|m rest IH]; intros extraction; cbn [stage_check].
  - apply may_raise_Ret.
  - apply may_raise_obind;
      [eapply may_raise_weaken;
       [apply builtin_no_load_timeout | apply item_builtin]|].
    intros status. destruct (negb (truthy status)); [apply IH|].
    destruct (negb (py_eqb status (VInt 0))); [|apply IH].
    apply may_raise_obind;
      [eapply may_raise_weaken;
       [apply builtin_no_load_timeout | apply item_builtin]|].
    intros d. apply may_raise_Raise. reflexivity.
Qed.

(** Runs. *)
Lemma raises_only_ret {A} P (a : A) : raises_only P (ret a).
Proof. intros h e h' [=]. Qed.

Lemma raises_only_out_of_fuel {A} P : raises_only P (@out_of_fuel A).
Proof. intros h e h' [=]. Qed.

Lemma raises_only_raise {A} (P : exn -> Prop) e :
  P e -> raises_only P (@raise A e).
Proof. intros HP h e' h' [= <- _]. exact HP. Qed.

Lemma raises_only_lift {A} P (o : outcome A) :
  may_raise P o -> raises_only P (lift o).
Proof. intros Ho h e h' [= E _]. now apply Ho. Qed.

Lemma raises_only_lift_builtin {A} (o : outcome A) :
  may_raise builtin o -> raises_only no_load_timeout (lift o).
Proof.
  intros Ho. apply raises_only_lift.
  eapply may_raise_weaken; [apply builtin_no_load_timeout | exact Ho].
Qed.

Lemma raises_only_bind {A B} P (m : M A) (k : A -> M B) :
  raises_only P m -> (forall a, raises_only P (k a)) ->
  raises_only P (bind m k).
Proof.
  intros Hm Hk h e h'. unfold bind.
  destruct (m h) as [[a | e' |] h1] eqn:E.
  - apply Hk.
  - intros [= <- _]. eapply Hm; eauto.
  - discriminate.
Qed.

Lemma raises_only_bind_ret {A B} P (a : A) (k : A -> M B) :
  raises_only P (k a) -> raises_only P (bind (ret a) k).
Proof. intros Hk. exact Hk. Qed.

Lemma raises_only_emit P ev : raises_only P (emit ev).
Proof. intros h e h' [=]. Qed.

Lemma raises_only_log P lvl msg : raises_only P (log lvl msg).
Proof. apply raises_only_emit. Qed.

Lemma raises_only_request P env method url data :
  raises_only P (requests_request env method url data).
Proof. intros h e h' [=]. Qed.

Lemma raises_only_now P env : raises_only P (datetime_now env).
Proof. intros h e h' [=]. Qed.

Lemma raises_only_sleep secs : raises_only no_load_timeout (time_sleep secs).
Proof.
  unfold time_sleep.
  destruct secs as [[| | z | | |] | f | |];
    try (apply raises_only_raise; reflexivity);
    try apply raises_only_emit.
  - destruct (0 <=? z);
      [apply raises_only_emit | apply raises_only_raise; reflexivity].
  - destruct (PrimFloat.leb 0 f);
      [apply raises_only_emit | apply raises_only_raise; reflexivity].
Qed.

Create HintDb raises discriminated.
#[local] Hint Resolve raises_only_ret raises_only_out_of_fuel
  raises_only_emit raises_only_log raises_only_request raises_only_now
  raises_only_sleep item_builtin subscript_builtin py_in_builtin
  py_iter_builtin py_gt_builtin dict_by_builtin selected_properties_builtin
  nest_loads_builtin extraction_observed_builtin load_is_stale_builtin
  stage_check_no_load_timeout may_raise_Ret : raises.

(** Goals [raises_only no_load_timeout _]: one constructor of the run at a
    time. *)
Ltac run_step :=
  repeat first
    [ solve [auto with raises]
    | apply raises_only_raise; reflexivity
    | apply raises_only_lift_builtin;
        first [ solve [auto with raises] | pure_step; auto with raises ]
    | apply raises_only_bind; [ | intros ? ]
    | match goal with
      | |- raises_only _ (match ?x with _ => _ end) => destruct x
      | |- raises_only _ (if ?b then _ else _) => destruct b
      end ].

Section NoLoadTimeout.

Variable env : Env.
Variable self : StitchResource.

Lemma make_request_loop_raises : forall fuel method url data retries,
  raises_only no_load_timeout
    (make_request_loop env self fuel method url data retries).
Proof.
  induction fuel as [|fuel IH]; intros; cbn [make_request_loop]; cbn zeta;
    run_step.
Qed.

Lemma make_request_raises method endpoint data :
  raises_only no_load_timeout (make_request env self method endpoint data).
Proof. apply make_request_loop_raises. Qed.

#[local] Hint Resolve make_request_raises : raises.

Lemma list_streams_raises id :
  raises_only no_load_timeout (list_streams env self id).
Proof. unfold list_streams. run_step. Qed.

Lemma get_stream_schema_raises id k :
  raises_only no_load_timeout (get_stream_schema env self id k).
Proof. unfold get_stream_schema. run_step. Qed.

Lemma list_recent_loads_raises id :
  raises_only no_load_timeout (list_recent_loads env self id).
Proof. unfold list_recent_loads. run_step. Qed.

Lemma start_replication_job_raises id :
  raises_only no_load_timeout (start_replication_job env self id).
Proof. unfold start_replication_job. run_step. Qed.

Lemma get_extractions_raises id :
  raises_only no_load_timeout (get_extractions env self id).
Proof. unfold get_extractions. run_step. Qed.

Lemma timeout_exceeded_raises timeout start :
  raises_only no_load_timeout (timeout_exceeded env timeout start).
Proof. unfold timeout_exceeded. run_step. Qed.

#[local] Hint Resolve list_streams_raises get_stream_schema_raises
  list_recent_loads_raises start_replication_job_raises
  get_extractions_raises timeout_exceeded_raises : raises.

Lemma extraction_loop_raises : forall fuel id pi et start resp,
  raises_only no_load_timeout
    (extraction_loop env self fuel id pi et start resp).
Proof.
  induction fuel as [|fuel IH]; intros; cbn [extraction_loop]; run_step.
Qed.

Lemma check_streams_raises streams loads start : forall names acc,
  raises_only no_load_timeout (check_streams names streams loads start acc).
Proof.
  induction names as [|k rest IH]; intros; cbn [check_streams]; run_step.
Qed.

Lemma fetch_schemas_raises id : forall names acc,
  raises_only no_load_timeout (fetch_schemas env self id names acc).
Proof.
  induction names as [|k rest IH]; intros; cbn [fetch_schemas]; run_step.
Qed.

#[local] Hint Resolve extraction_loop_raises check_streams_raises
  fetch_schemas_raises : raises.

(** Without a load timeout the load loop has no way to the load-timeout
    failure: [None and ...] is false before the clock is even read. *)
Lemma load_loop_raises streams start id pi : forall fuel,
  raises_only no_load_timeout
    (load_loop env self fuel id pi ONone streams start).
Proof.
  induction fuel as [|fuel IH]; cbn [load_loop]; [run_step|].
  apply raises_only_bind; [auto with raises|]. intros loads.
  destruct loads as [|kv loads]; [run_step|].
  apply raises_only_bind; [auto with raises|]. intros _.
  apply raises_only_bind; [auto with raises|]. intros complete.
  destruct complete; cbn [negb]; [run_step|].
  unfold timeout_exceeded. cbn [obj_truthy ONone truthy].
  apply raises_only_bind_ret. run_step.
Qed.

End NoLoadTimeout.

(** A load timeout given as a timedelta does end the call in the
    load-timeout failure, once the clock has passed it: the failure that
    the omitted timeout rules out is one the load loop can raise. *)
Lemma load_timeout_failure_is_reachable :
  fst (start_replication_job_and_poll ticking Fixture.resource 5 "bing"
         ONone ONone (OTimedelta 5000000) [])
  = Raise (load_timed_out "bing" (OTimedelta 5000000))
  /\ is_load_timeout_failure (load_timed_out "bing" (OTimedelta 5000000))
     = true.
Proof. split; vm_compute; reflexivity. Qed.

(** With the defaults of the Dagster resource (600 seconds for both
    timeouts) and no [load_timeout] argument the call keeps polling a load
    that never gets fresh; given the same 600 as an argument it stops at
    the first timeout test. *)
Lemma dagster_default_load_timeout_is_not_applied :
  _default_load_timeout (stitch_resource_defaults "bar") = OVal (VInt 600)
  /\ fst (start_replication_job_and_poll never_loaded
            (stitch_resource_defaults "bar") 3 "bing" ONone ONone ONone [])
     = OutOfFuel
  /\ fst (start_replication_job_and_poll never_loaded
            (stitch_resource_defaults "bar") 3 "bing" ONone ONone
            (OVal (VInt 600)) [])
     = Raise TypeError.
Proof. repeat split; vm_compute; reflexivity. Qed.

(** C10.  With [load_timeout] omitted the call never ends in the
    load-timeout failure, whatever the server and the clock do; the
    resource's [default_load_timeout] is never read, so the call is the
    same for every value of it (the 600 seconds of the Dagster resource
    included), with or without a [load_timeout] argument; an omitted
    [poll_interval] or [extraction_timeout], in contrast, is replaced by
    the configured default. *)
Theorem omitted_load_timeout_never_times_out env self fuel data_source_id
    poll_interval extraction_timeout h :
  raised_load_timeout
    (start_replication_job_and_poll env self fuel data_source_id
       poll_interval extraction_timeout ONone h) = false
  /\ (forall v load_timeout,
        start_replication_job_and_poll env (with_default_load_timeout self v)
          fuel data_source_id poll_interval extraction_timeout load_timeout h
        = start_replication_job_and_poll env self fuel data_source_id
            poll_interval extraction_timeout load_timeout h)
  /\ (forall load_timeout,
        start_replication_job_and_poll env self fuel data_source_id
          ONone ONone load_timeout h
        = start_replication_job_and_poll env self fuel data_source_id
            (_default_poll_interval self) (_default_extraction_timeout self)
            load_timeout h).
Proof.
  split; [|split].
  - unfold raised_load_timeout.
    destruct (start_replication_job_and_poll env self fuel data_source_id
                poll_interval extraction_timeout ONone h)
      as [[out | e |] h'] eqn:E; cbn [fst]; try reflexivity.
    revert E. generalize h e h'. change (raises_only no_load_timeout
      (start_replication_job_and_poll env self fuel data_source_id
         poll_interval extraction_timeout ONone)).
    unfold start_replication_job_and_poll, load_phase.
    apply raises_only_bind; [apply raises_only_now | intros start].
    apply raises_only_bind;
      [apply start_replication_job_raises | intros resp].
    apply raises_only_bind; [apply extraction_loop_raises | intros ext].
    apply raises_only_bind;
      [apply raises_only_lift, stage_check_no_load_timeout | intros _].
    apply raises_only_bind; [apply list_streams_raises | intros streams].
    apply raises_only_bind; [apply raises_only_now | intros load_start].
    apply raises_only_bind; [apply load_loop_raises | intros loads].
    apply raises_only_bind; [apply fetch_schemas_raises | intros schemas].
    apply raises_only_ret.
  - intros v load_timeout. reflexivity.
  - intros load_timeout. unfold start_replication_job_and_poll.
    cbn [is_None ONone].
    destruct (is_None (_default_poll_interval self)) eqn:Ep;
      destruct (is_None (_default_extraction_timeout self)) eqn:Ee;
      reflexivity.
Qed.

(* ================================================================= *)
(** * Further properties of the request layer *)

Lemma time_sleep_history secs h o h' :
  time_sleep secs h = (o, h') -> h' = h \/ h' = EvSleep secs :: h.
Proof.
  unfold time_sleep.
  destruct secs as [[| | z | | |] | f | |];
    try (intros [= <- <-]; auto).
  - destruct (0 <=? z); intros [= <- <-]; auto.
  - destruct (PrimFloat.leb 0 f); intros [= <- <-]; auto.
Qed.

Section MakeRequestOutcome.

Variable env : Env.
Variable self : StitchResource.
Variables method url : string.
Variable data : option string.

Let r := _request_max_retries self.
Let delay := _request_retry_delay self.

(** [k] attempts that fail one after the other take the loop [k] rounds
    further. *)
Lemma make_request_loop_after_failures :
  valid_sleep delay = true ->
  forall k fuel retries h,
    (forall j, (j < k)%nat ->
       exists e, http env (failed_attempts env delay method url data j h)
                      method url data = RequestException e) ->
    retries + Z.of_nat k <= r ->
    make_request_loop env self (k + fuel) method url data retries h
    = make_request_loop env self fuel method url data
        (retries + Z.of_nat k)
        (failed_attempts env delay method url data k h).
Proof.
  intros Hs. induction k as [|k IH]; intros fuel retries h Hfail Hr.
  - cbn [failed_attempts Nat.add]. now rewrite Z.add_0_r.
  - cbn [Nat.add make_request_loop]. fold r.
    replace (retries <? r) with true by (symmetry; apply Z.ltb_lt; lia).
    destruct (Hfail 0%nat ltac:(lia)) as [e He]. cbn [failed_attempts] in He.
    unfold bind at 1. unfold requests_request. rewrite He.
    unfold bind at 1. unfold log, emit.
    unfold bind at 1. fold delay. rewrite time_sleep_valid by assumption.
    rewrite IH.
    + cbn [failed_attempts]. rewrite He. cbn [error_text].
      f_equal. lia.
    + intros j Hj. destruct (Hfail (S j) ltac:(lia)) as [e' He'].
      cbn [failed_attempts] in He'. rewrite He in He'. eauto.
    + lia.
Qed.

(** The round in which the server answers. *)
Lemma make_request_loop_response fuel retries h body :
  retries < r ->
  http env h method url data = Response body ->
  make_request_loop env self (S fuel) method url data retries h
  = match has_next body with
    | Ret b =>
        (Ret (payload body),
         if b then pagination_warning :: EvRequest method url data :: h
         else EvRequest method url data :: h)
    | Raise e => (Raise e, EvRequest method url data :: h)
    | OutOfFuel => (OutOfFuel, EvRequest method url data :: h)
    end.
Proof.
  intros Hr Hresp. cbn [make_request_loop]. fold r.
  replace (retries <? r) with true by (symmetry; apply Z.ltb_lt; lia).
  unfold bind at 1. unfold requests_request. rewrite Hresp.
  destruct body as [| | | | |fields]; try reflexivity.
  cbn [has_next payload]. fold (links_of fields). rewrite bind_lift.
  destruct (py_in (VStr "next") (links_of fields)) as [[] | e |];
    reflexivity.
Qed.

(** Whatever the server does, a request costs at most as many attempts, and
    as many sleeps, as retries are left. *)
Lemma make_request_loop_bound : forall fuel retries h o h',
  make_request_loop env self fuel method url data retries h = (o, h') ->
  (count_requests h' <= count_requests h + Z.to_nat (r - retries))%nat
  /\ (count_sleeps h' <= count_sleeps h + Z.to_nat (r - retries))%nat.
Proof.
  induction fuel as [|fuel IH]; intros retries h o h' H;
    cbn [make_request_loop] in H.
  - injection H as <- <-. lia.
  - fold r in H. destruct (Z.ltb_spec retries r) as [Hr|Hr];
      [|injection H as <- <-; lia].
    assert (Hleft : Z.to_nat (r - retries)
                    = S (Z.to_nat (r - (retries + 1)))) by lia.
    unfold bind at 1 in H. unfold requests_request in H.
    destruct (http env h method url data) as [e | body].
    + unfold bind at 1 in H. unfold log, emit in H.
      unfold bind at 1 in H.
      destruct (time_sleep (_request_retry_delay self) _)
        as [[[] | e' |] h1] eqn:Es;
        apply time_sleep_history in Es;
        [ apply IH in H; revert H
        | injection H as <- <-
        | injection H as <- <- ];
        destruct Es as [-> | ->];
        unfold count_requests, count_sleeps;
        cbn [filter is_request is_sleep List.length]; lia.
    + destruct body as [| | | | |fields];
        try (injection H as <- <-; unfold count_requests, count_sleeps;
             cbn [filter is_request is_sleep List.length]; lia).
      rewrite bind_lift in H.
      destruct (py_in _ _) as [[] | e |]; cbn in H; injection H as <- <-;
        unfold count_requests, count_sleeps;
        cbn [filter is_request is_sleep List.length]; lia.
Qed.

End MakeRequestOutcome.

Lemma has_next_TypeError body e : has_next body = Raise e -> e = TypeError.
Proof.
  destruct body as [| | | | |fields]; try discriminate. cbn [has_next].
  unfold py_in. destruct (links_of fields) as [| | | s | l | d];
    try (now intros [= <-]); try discriminate.
Qed.

Lemma make_request_after_failures env self method endpoint data h k :
  let url := urljoin API_BASE_URL endpoint in
  let delay := _request_retry_delay self in
  valid_sleep delay = true ->
  Z.of_nat k < _request_max_retries self ->
  (forall j, (j < k)%nat ->
     exists e, http env (failed_attempts env delay method url data j h)
                    method url data = RequestException e) ->
  make_request env self method endpoint data h
  = make_request_loop env self (S (Z.to_nat (_request_max_retries self) - k))
      method url data (Z.of_nat k)
      (failed_attempts env delay method url data k h).
Proof.
  intros url delay Hs Hk Hfail. unfold make_request. fold url.
  replace (S (Z.to_nat (_request_max_retries self)))
    with (k + S (Z.to_nat (_request_max_retries self) - k))%nat by lia.
  rewrite (make_request_loop_after_failures env self method url data Hs
             k _ 0 h Hfail) by lia.
  reflexivity.
Qed.

(** X1.  Transient failures are survived: when the first [k] attempts raise
    a transport error and the next one is answered, with [k] below the
    maximum retry count, [make_request] returns the payload of the answer
    (its [data] field if it is a dictionary that has one, else the body as
    it is) after [k + 1] requests and [k] sleeps, and warns when the answer
    links to a next page. *)
Theorem make_request_survives_transient_failures env self method endpoint
    data h k body b :
  let url := urljoin API_BASE_URL endpoint in
  let delay := _request_retry_delay self in
  let h_k := failed_attempts env delay method url data k h in
  valid_sleep delay = true ->
  Z.of_nat k < _request_max_retries self ->
  (forall j, (j < k)%nat ->
     exists e, http env (failed_attempts env delay method url data j h)
                    method url data = RequestException e) ->
  http env h_k method url data = Response body ->
  has_next body = Ret b ->
  make_request env self method endpoint data h
  = (Ret (payload body),
     if b then pagination_warning :: EvRequest method url data :: h_k
     else EvRequest method url data :: h_k)
  /\ count_requests (EvRequest method url data :: h_k)
     = (count_requests h + k + 1)%nat
  /\ count_sleeps (EvRequest method url data :: h_k)
     = (count_sleeps h + k)%nat.
Proof.
  intros url delay h_k Hs Hk Hfail Hresp Hnext. split; [|split].
  - rewrite (make_request_after_failures env self method endpoint data h k)
      by assumption.
    fold url delay h_k.
    replace (S (Z.to_nat (_request_max_retries self)) - k)%nat
      with (S (Z.to_nat (_request_max_retries self) - k))%nat by lia.
    rewrite (make_request_loop_response env self method url data _ _ _ body)
      by assumption.
    now rewrite Hnext.
  - unfold count_requests at 1. cbn [filter is_request List.length].
    fold (count_requests h_k). unfold h_k.
    rewrite count_requests_failed_attempts. lia.
  - unfold count_sleeps at 1. cbn [filter is_sleep].
    fold (count_sleeps h_k). unfold h_k.
    now rewrite count_sleeps_failed_attempts.
Qed.

Lemma make_request_survives_transient_failures_witness :
  make_request (flaky 2 [("GET", "https://api.stitchdata.com/v4/sources",
                          paged_sources)] Fixture.now0)
    Fixture.resource "GET" "sources" None []
  = (Ret (VList [Fixture.obj [("id", VInt 1)]]),
     pagination_warning
     :: EvRequest "GET" "https://api.stitchdata.com/v4/sources" None
     :: failed_attempts
          (flaky 2 [("GET", "https://api.stitchdata.com/v4/sources",
                     paged_sources)] Fixture.now0)
          (OFloat 0.25%float) "GET" "https://api.stitchdata.com/v4/sources"
          None 2 []).
Proof.
  apply (make_request_survives_transient_failures
           (flaky 2 [("GET", "https://api.stitchdata.com/v4/sources",
                      paged_sources)] Fixture.now0)
           Fixture.resource "GET" "sources" None [] 2 paged_sources true).
  - vm_compute. reflexivity.
  - vm_compute. reflexivity.
  - intros j Hj. destruct j as [|[|j]]; [eexists; reflexivity .. | lia].
  - reflexivity.
  - reflexivity.
Defined.

(** X2.  Whatever the server answers and however the call ends,
    [make_request] issues at most [request_max_retries] requests and sleeps
    at most that many times (none at all when the count is zero or
    negative). *)
Theorem make_request_never_exceeds_max_retries env self method endpoint
    data h :
  (count_requests (snd (make_request env self method endpoint data h))
   <= count_requests h + Z.to_nat (_request_max_retries self))%nat
  /\ (count_sleeps (snd (make_request env self method endpoint data h))
      <= count_sleeps h + Z.to_nat (_request_max_retries self))%nat.
Proof.
  unfold make_request.
  destruct (make_request_loop env self _ method _ data 0 h) as [o h'] eqn:E.
  apply make_request_loop_bound in E. rewrite Z.sub_0_r in E. exact E.
Qed.

(** X3.  Only transport errors are retried.  When the answered body is a
    dictionary whose [links] is neither a dictionary, a list nor a string
    (a JSON null, say), the pagination test raises [TypeError], and
    [make_request] ends with that error at once: no further attempt, no
    sleep, although retries are left. *)
Theorem make_request_does_not_retry_type_errors env self method endpoint
    data h k body e :
  let url := urljoin API_BASE_URL endpoint in
  let delay := _request_retry_delay self in
  let h_k := failed_attempts env delay method url data k h in
  valid_sleep delay = true ->
  Z.of_nat k < _request_max_retries self ->
  (forall j, (j < k)%nat ->
     exists e, http env (failed_attempts env delay method url data j h)
                    method url data = RequestException e) ->
  http env h_k method url data = Response body ->
  has_next body = Raise e ->
  make_request env self method endpoint data h
  = (Raise TypeError, EvRequest method url data :: h_k).
Proof.
  intros url delay h_k Hs Hk Hfail Hresp Hnext.
  rewrite (make_request_after_failures env self method endpoint data h k)
      by assumption.
  fold url delay h_k.
  replace (S (Z.to_nat (_request_max_retries self)) - k)%nat
    with (S (Z.to_nat (_request_max_retries self) - k))%nat by lia.
  rewrite (make_request_loop_response env self method url data _ _ _ body)
    by assumption.
  rewrite Hnext. now rewrite (has_next_TypeError _ _ Hnext).
Qed.

Lemma make_request_does_not_retry_type_errors_witness :
  make_request (Fixture.mock_env [("GET",
                                   "https://api.stitchdata.com/v4/sources",
                                   null_links)] Fixture.now0)
    Fixture.resource "GET" "sources" None []
  = (Raise TypeError,
     [EvRequest "GET" "https://api.stitchdata.com/v4/sources" None]).
Proof.
  apply (make_request_does_not_retry_type_errors
           (Fixture.mock_env [("GET",
                               "https://api.stitchdata.com/v4/sources",
                               null_links)] Fixture.now0)
           Fixture.resource "GET" "sources" None [] 0 null_links TypeError).
  - vm_compute. reflexivity.
  - vm_compute. reflexivity.
  - intros j Hj. lia.
  - reflexivity.
  - reflexivity.
Defined.

(* ================================================================= *)
(** * Further properties of the read accessors *)

Lemma key_eqb_refl k : key_eqb k k = true.
Proof. now apply key_eqb_eq. Qed.

Lemma find_snoc {A} (p : A -> bool) l x :
  find p (l ++ [x])%list
  = match find p l with
    | Some y => Some y
    | None => if p x then Some x else None
    end.
Proof.
  induction l as [|a l IH]; cbn [app find]; [reflexivity|].
  now destruct (p a).
Qed.

(** Looking a key up in the dictionary that [dict_by] builds finds the last
    record of the array with that key. *)
Lemma dict_by_lookup field : forall xs acc d,
  dict_by field xs acc = Ret d ->
  forall k, dict_get d k
            = match last_with_key field k xs with
              | Some x => Some x
              | None => dict_get acc k
              end.
Proof.
  induction xs as [|x xs IH]; intros acc d H k.
  - injection H as <-. reflexivity.
  - cbn [dict_by] in H.
    destruct (item x field) as [name | |] eqn:En; try discriminate.
    cbn [obind] in H.
    destruct (hash_key name) as [kx|] eqn:Ek; [|discriminate].
    rewrite (IH _ _ H k). unfold last_with_key. cbn [rev].
    rewrite find_snoc.
    destruct (find (has_key field k) (rev xs)); [reflexivity|].
    rewrite dict_get_set. unfold has_key, key_of. rewrite En, Ek.
    now destruct (key_eqb kx k).
Qed.

Lemma dict_by_total field : forall xs acc,
  (forall x, In x xs -> exists k, key_of field x = Some k) ->
  exists d, dict_by field xs acc = Ret d.
Proof.
  induction xs as [|x xs IH]; intros acc H; [eexists; reflexivity|].
  destruct (H x (or_introl eq_refl)) as [k Hk].
  unfold key_of in Hk. cbn [dict_by].
  destruct (item x field) as [name | |]; try discriminate.
  cbn [obind]. rewrite Hk. apply IH. intros x' Hin. apply H. now right.
Qed.

Lemma last_with_key_none field k xs :
  (forall x, In x xs -> has_key field k x = false) ->
  last_with_key field k xs = None.
Proof.
  intros H. unfold last_with_key.
  destruct (find _ (rev xs)) as [x|] eqn:E; [|reflexivity].
  apply find_some in E as [Hin Hk]. apply in_rev in Hin.
  rewrite (H x Hin) in Hk. discriminate.
Qed.

(** X4.  [list_streams] indexes the stream array by name: looking a name up
    gives the last stream of the response that carries it (an earlier
    stream of the same name is overwritten), and nothing for a name that no
    stream carries.  The request is the only effect. *)
Theorem list_streams_keeps_last_stream_of_a_name env self data_source_id h
    body h1 xs :
  make_request env self "GET" ("sources/" ++ data_source_id ++ "/streams")
               None h = (Ret body, h1) ->
  py_iter body = Ret xs ->
  (forall x, In x xs -> exists k, key_of "stream_name" x = Some k) ->
  exists streams,
    list_streams env self data_source_id h = (Ret streams, h1)
    /\ forall k, dict_get streams k = last_with_key "stream_name" k xs.
Proof.
  intros Hreq Hiter Hkeys.
  destruct (dict_by_total "stream_name" xs [] Hkeys) as [streams Hd].
  exists streams. split.
  - unfold list_streams. rewrite (bind_Ret _ _ _ _ _ Hreq).
    unfold lift. rewrite Hiter. cbn [obind]. now rewrite Hd.
  - intros k. rewrite (dict_by_lookup _ _ _ _ Hd k).
    now destruct (last_with_key "stream_name" k xs).
Qed.

Lemma list_streams_keeps_last_stream_of_a_name_witness :
  exists streams,
    list_streams (Fixture.mock_env repeated_stream_routes Fixture.now0)
      Fixture.resource "bing" []
    = (Ret streams,
       [EvRequest "GET" "https://api.stitchdata.com/v4/sources/bing/streams"
                  None])
    /\ dict_get streams (KStr "qux")
       = Some (Fixture.stream_descriptor "qux" false)
    /\ dict_get streams (KStr "zap") = None.
Proof.
  destruct (list_streams_keeps_last_stream_of_a_name
              (Fixture.mock_env repeated_stream_routes Fixture.now0)
              Fixture.resource "bing" []
              (VList [Fixture.stream_descriptor "qux" true;
                      Fixture.stream_descriptor "aux" true;
                      Fixture.stream_descriptor "qux" false])
              [EvRequest "GET"
                 "https://api.stitchdata.com/v4/sources/bing/streams" None]
              [Fixture.stream_descriptor "qux" true;
               Fixture.stream_descriptor "aux" true;
               Fixture.stream_descriptor "qux" false])
    as (streams & Hrun & Hget).
  - reflexivity.
  - reflexivity.
  - intros x [<-|[<-|[<-|[]]]]; eexists; reflexivity.
  - exists streams. split; [exact Hrun|].
    split; rewrite Hget; reflexivity.
Defined.

(** X5.  [get_extractions] with a data source gives the last extraction
    record of the response for that source, and the empty dictionary when
    the response has none; without a data source it gives the whole index
    by source. *)
Theorem get_extractions_finds_the_record_of_the_source env self h body h1
    xs :
  make_request env self "GET" ("sources/" ++ _account_id self
                               ++ "/extractions") None h = (Ret body, h1) ->
  py_iter body = Ret xs ->
  (forall x, In x xs -> exists k, key_of "source_id" x = Some k) ->
  (forall data_source_id,
     get_extractions env self (Some data_source_id) h
     = (Ret (match last_with_key "source_id" (KStr data_source_id) xs with
             | Some record => record
             | None => VDict []
             end), h1))
  /\ exists extraction_map,
       get_extractions env self None h = (Ret (VDict extraction_map), h1)
       /\ forall k, dict_get extraction_map k
                    = last_with_key "source_id" k xs.
Proof.
  intros Hreq Hiter Hkeys.
  destruct (dict_by_total "source_id" xs [] Hkeys) as [extraction_map Hd].
  assert (Hget : forall k, dict_get extraction_map k
                           = last_with_key "source_id" k xs).
  { intros k. rewrite (dict_by_lookup _ _ _ _ Hd k).
    now destruct (last_with_key "source_id" k xs). }
  split.
  - intros id. unfold get_extractions. rewrite (bind_Ret _ _ _ _ _ Hreq).
    unfold lift at 1. rewrite Hiter. cbn [obind]. rewrite Hd.
    unfold bind, ret. now rewrite Hget.
  - exists extraction_map. split; [|exact Hget].
    unfold get_extractions. rewrite (bind_Ret _ _ _ _ _ Hreq).
    unfold lift at 1. rewrite Hiter. cbn [obind]. now rewrite Hd.
Qed.

Lemma get_extractions_finds_the_record_of_the_source_witness :
  get_extractions Fixture.mock_sync_requests Fixture.resource (Some "bing") []
  = (Ret (Fixture.extraction_record "bing"),
     [EvRequest "GET" "https://api.stitchdata.com/v4/sources/bar/extractions"
                None])
  /\ get_extractions Fixture.mock_sync_requests Fixture.resource
       (Some "other") []
     = (Ret (VDict []),
        [EvRequest "GET"
           "https://api.stitchdata.com/v4/sources/bar/extractions" None]).
Proof.
  destruct (get_extractions_finds_the_record_of_the_source
              Fixture.mock_sync_requests Fixture.resource []
              (VList [Fixture.extraction_record "bing"])
              [EvRequest "GET"
                 "https://api.stitchdata.com/v4/sources/bar/extractions"
                 None]
              [Fixture.extraction_record "bing"]) as [Hsome _].
  - reflexivity.
  - reflexivity.
  - intros x [<-|[]]. eexists. reflexivity.
  - split; rewrite Hsome; reflexivity.
Defined.

(** X6.  A data source without an extraction record (a first run, or an
    account whose extractions all belong to other sources) ends the
    extraction poll in the first round with [Extraction not found]: nothing
    is logged, the clock is not read and nothing sleeps, whatever the
    timeout. *)
Theorem extraction_poll_fails_without_a_record env self fuel data_source_id
    poll_interval extraction_timeout extraction_start replication_response
    h body h1 xs :
  make_request env self "GET" ("sources/" ++ _account_id self
                               ++ "/extractions") None h = (Ret body, h1) ->
  py_iter body = Ret xs ->
  (forall x, In x xs -> exists k, key_of "source_id" x = Some k) ->
  (forall x, In x xs ->
             has_key "source_id" (KStr data_source_id) x = false) ->
  extraction_loop env self (S fuel) data_source_id poll_interval
    extraction_timeout extraction_start replication_response h
  = (Raise (extraction_not_found data_source_id), h1).
Proof.
  intros Hreq Hiter Hkeys Hnone.
  destruct (dict_by_total "source_id" xs [] Hkeys) as [extraction_map Hd].
  assert (Hget : get_extractions env self (Some data_source_id) h
                 = (Ret (VDict []), h1)).
  { unfold get_extractions. rewrite (bind_Ret _ _ _ _ _ Hreq).
    unfold lift at 1. rewrite Hiter. cbn [obind]. rewrite Hd.
    unfold bind, ret. rewrite (dict_by_lookup _ _ _ _ Hd).
    now rewrite (last_with_key_none _ _ _ Hnone). }
  cbn [extraction_loop]. now rewrite (bind_Ret _ _ _ _ _ Hget).
Qed.

Lemma extraction_poll_fails_without_a_record_witness :
  start_replication_job_and_poll
    (Fixture.mock_env first_run_routes Fixture.now0) Fixture.resource 5
    "bing" ONone ONone ONone []
  = (Raise (extraction_not_found "bing"),
     [EvRequest "GET" "https://api.stitchdata.com/v4/sources/bar/extractions"
                None;
      EvRequest "POST" "https://api.stitchdata.com/v4/sources/bing/sync"
                None;
      EvNow Fixture.now0]).
Proof.
  unfold start_replication_job_and_poll.
  unfold bind at 1. cbn [datetime_now Fixture.mock_env clock].
  unfold bind at 1.
  change (start_replication_job _ _ "bing" [EvNow Fixture.now0])
    with (Ret (Fixture.obj [("job_name", VStr Fixture.JOB_ID)]),
          [EvRequest "POST"
             "https://api.stitchdata.com/v4/sources/bing/sync" None;
           EvNow Fixture.now0]).
  cbv iota beta.
  rewrite (bind_Raise _ _ _ (extraction_not_found "bing")
             [EvRequest "GET"
                "https://api.stitchdata.com/v4/sources/bar/extractions" None;
              EvRequest "POST"
                "https://api.stitchdata.com/v4/sources/bing/sync" None;
              EvNow Fixture.now0]); [reflexivity|].
  apply (extraction_poll_fails_without_a_record
           (Fixture.mock_env first_run_routes Fixture.now0) Fixture.resource
           4 "bing" (OFloat 10%float) ONone Fixture.now0 _ _
           (VList [Fixture.extraction_record "wrong"]) _
           [Fixture.extraction_record "wrong"]).
  - reflexivity.
  - reflexivity.
  - intros x [<-|[]]. eexists. reflexivity.
  - intros x [<-|[]]. reflexivity.
Defined.



(** ** [list_recent_loads] *)

Lemma dict_set_nonempty d k v : exists item0 items, dict_set d k v = item0 :: items.
Proof.
  destruct d as [|[k' v'] d]; cbn [dict_set]; [eauto|].
  destruct (key_eqb k' k); eauto.
Qed.

(** One round of the loop of [list_recent_loads], on a well-formed load. *)
Lemma nest_loads_step load rest all_loads source stream :
  nested all_loads ->
  key_of "source_name" load = Some source ->
  key_of "stream_name" load = Some stream ->
  exists all_loads',
    nest_loads (load :: rest) all_loads = nest_loads rest all_loads'
    /\ nested all_loads'
    /\ (forall s, dict_get all_loads' s
                  = if key_eqb source s then dict_get all_loads' source
                    else dict_get all_loads s)
    /\ (forall s t, nested_get all_loads' s t
                    = if key_eqb source s && key_eqb stream t then Some load
                      else nested_get all_loads s t).
Proof.
  intros Hn Hs Ht. unfold key_of in Hs, Ht. cbn [nest_loads].
  destruct (item load "source_name") as [sn | |]; try discriminate.
  destruct (item load "stream_name") as [tn | |]; try discriminate.
  cbn [obind]. rewrite Hs. cbn zeta.
  assert (Hby : exists by_stream,
    dict_get (if dict_has all_loads source then all_loads
              else dict_set all_loads source (VDict [])) source
    = Some (VDict by_stream)
    /\ forall t, dict_get by_stream t = nested_get all_loads source t).
  { unfold dict_has, nested_get.
    destruct (dict_get all_loads source) as [v|] eqn:Eg.
    - destruct (Hn _ _ Eg) as (it & its & ->). rewrite Eg. eauto.
    - rewrite dict_get_set, key_eqb_refl. exists []. auto. }
  destruct Hby as (by_stream & Eby & Hby). rewrite Eby. cbn [obind].
  rewrite Ht. eexists. split; [reflexivity|].
  assert (Hother : forall s, key_eqb source s = false ->
    dict_get (if dict_has all_loads source then all_loads
              else dict_set all_loads source (VDict [])) s
    = dict_get all_loads s).
  { intros s Es. destruct (dict_has all_loads source); [reflexivity|].
    now rewrite dict_get_set, Es. }
  split; [|split].
  - intros s v. rewrite dict_get_set.
    destruct (key_eqb source s) eqn:Es.
    + intros [= <-].
      destruct (dict_set_nonempty by_stream stream load) as (it & its & ->).
      eauto.
    + rewrite (Hother s Es). apply Hn.
  - intros s. rewrite !dict_get_set, key_eqb_refl.
    destruct (key_eqb source s) eqn:Es; [reflexivity|]. now apply Hother.
  - intros s t. unfold nested_get at 1. rewrite dict_get_set.
    destruct (key_eqb source s) eqn:Es; cbn [andb].
    + rewrite dict_get_set. apply key_eqb_eq in Es as <-.
      destruct (key_eqb stream t); [reflexivity | apply Hby].
    + rewrite (Hother s Es). reflexivity.
Qed.

Lemma nest_loads_lookup : forall xs all_loads,
  all_keyed ["source_name"; "stream_name"] xs ->
  nested all_loads ->
  exists d,
    nest_loads xs all_loads = Ret d
    /\ nested d
    /\ (forall s, (forall x, In x xs -> has_key "source_name" s x = false) ->
                  dict_get d s = dict_get all_loads s)
    /\ (forall s t, nested_get d s t
                    = match last_load s t xs with
                      | Some x => Some x
                      | None => nested_get all_loads s t
                      end).
Proof.
  induction xs as [|x xs IH]; intros all_loads Hk Hn.
  - exists all_loads. repeat split; auto.
  - destruct (Hk x "source_name") as [source Hs]; [now left | now left |].
    destruct (Hk x "stream_name") as [stream Ht];
      [now left | right; now left |].
    destruct (nest_loads_step x xs all_loads source stream Hn Hs Ht)
      as (acc & Hstep & Hnacc & Hsrc & Hget).
    destruct (IH acc) as (d & Hd & Hnd & Hdsrc & Hdget); [|exact Hnacc|].
    { intros y f Hy Hf. apply Hk; [now right | exact Hf]. }
    exists d. rewrite Hstep. split; [exact Hd|]. split; [exact Hnd|]. split.
    + intros s Hnone. rewrite Hdsrc.
      * rewrite Hsrc.
        specialize (Hnone x (or_introl eq_refl)).
        unfold has_key in Hnone. rewrite Hs in Hnone. now rewrite Hnone.
      * intros y Hy. apply Hnone. now right.
    + intros s t. rewrite Hdget. unfold last_load. cbn [rev].
      rewrite find_snoc.
      destruct (find _ (rev xs)); [reflexivity|].
      rewrite Hget. unfold has_key. rewrite Hs, Ht.
      now destruct (key_eqb source s && key_eqb stream t).
Qed.

(** X8.  [list_recent_loads] with a data source gives, under each stream
    name, the last load of the response for that source and that stream
    (loads of other sources never show, earlier loads of the same stream
    are overwritten); the mapping is empty exactly when the response has no
    load for the source. *)
Theorem list_recent_loads_keeps_last_load_of_each_stream env self
    data_source_id h body h1 xs :
  make_request env self "GET" ("sources/" ++ _account_id self ++ "/loads")
               None h = (Ret body, h1) ->
  py_iter body = Ret xs ->
  all_keyed ["source_name"; "stream_name"] xs ->
  data_source_id <> EmptyString ->
  exists loads,
    list_recent_loads env self (Some data_source_id) h = (Ret loads, h1)
    /\ (forall stream,
          dict_get loads stream
          = last_load (KStr data_source_id) stream xs)
    /\ (loads = [] <->
        forall x, In x xs ->
                  has_key "source_name" (KStr data_source_id) x = false).
Proof.
  intros Hreq Hiter Hk Hid.
  destruct (nest_loads_lookup xs [] Hk) as (d & Hd & Hnd & Hsrc & Hget).
  { intros s v [=]. }
  assert (Hne : negb (String.eqb data_source_id EmptyString) = true).
  { apply negb_true_iff. now apply String.eqb_neq. }
  unfold list_recent_loads. rewrite (bind_Ret _ _ _ _ _ Hreq).
  unfold lift at 1. rewrite Hiter. cbn [obind]. rewrite Hd.
  unfold bind. rewrite Hne.
  pose proof (Hget (KStr data_source_id)) as Hrow. unfold nested_get in Hrow.
  destruct (dict_get d (KStr data_source_id)) as [v|] eqn:Eg.
  - destruct (Hnd _ _ Eg) as (it & its & ->).
    exists (it :: its). split; [reflexivity|].
    split.
    + intros stream. rewrite Hrow. cbn [dict_get].
      now destruct (last_load (KStr data_source_id) stream xs).
    + split; [discriminate|]. intros Hnone.
      rewrite (Hsrc _ Hnone) in Eg. discriminate.
  - exists []. split; [reflexivity|]. split.
    + intros stream. specialize (Hrow stream). cbn [dict_get] in Hrow.
      cbn [dict_get].
      now destruct (last_load (KStr data_source_id) stream xs).
    + split; [|reflexivity]. intros _ x Hin.
      destruct (has_key "source_name" (KStr data_source_id) x) eqn:Ex;
        [|reflexivity].
      destruct (Hk x "stream_name") as [stream Ht];
        [exact Hin | right; now left |].
      specialize (Hrow stream). cbn [dict_get] in Hrow.
      assert (Hp : (has_key "source_name" (KStr data_source_id) x
                    && has_key "stream_name" stream x) = true).
      { rewrite Ex. unfold has_key. rewrite Ht. now rewrite key_eqb_refl. }
      destruct (last_load (KStr data_source_id) stream xs) eqn:El;
        [discriminate|].
      unfold last_load in El.
      rewrite (find_none _ _ El x) in Hp; [discriminate|].
      now apply -> in_rev.
Qed.

Lemma list_recent_loads_keeps_last_load_of_each_stream_witness :
  exists loads,
    list_recent_loads mixed_loads_env Fixture.resource (Some "bing") []
    = (Ret loads,
       [EvRequest "GET" "https://api.stitchdata.com/v4/sources/bar/loads"
                  None])
    /\ dict_get loads (KStr "qux")
       = Some (Fixture.load_record "bing" "qux" (VStr Fixture.tomorrow)
                                   VNone)
    /\ dict_keys loads = [KStr "qux"; KStr "aux"].
Proof.
  destruct (list_recent_loads_keeps_last_load_of_each_stream
              mixed_loads_env Fixture.resource "bing" []
              (VList mixed_loads)
              [EvRequest "GET"
                 "https://api.stitchdata.com/v4/sources/bar/loads" None]
              mixed_loads) as (loads & Hrun & Hget & _).
  - reflexivity.
  - reflexivity.
  - intros x f [<-|[<-|[<-|[<-|[]]]]] [<-|[<-|[]]]; eexists; reflexivity.
  - discriminate.
  - exists loads. split; [exact Hrun|]. split; [now rewrite Hget|].
    injection Hrun as <-. reflexivity.
Defined.

(** X9.  When the loads response has no load for the data source, the load
    poll fails in its first round with [Load not found], whatever the
    stream list holds (also when no stream is selected) and whatever the
    timeout: the stream list is not looked at, the clock is not read and
    nothing sleeps. *)
Theorem load_poll_fails_without_a_load env self fuel data_source_id
    poll_interval load_timeout streams load_start h body h1 xs :
  make_request env self "GET" ("sources/" ++ _account_id self ++ "/loads")
               None h = (Ret body, h1) ->
  py_iter body = Ret xs ->
  all_keyed ["source_name"; "stream_name"] xs ->
  data_source_id <> EmptyString ->
  (forall x, In x xs ->
             has_key "source_name" (KStr data_source_id) x = false) ->
  load_loop env self (S fuel) data_source_id poll_interval load_timeout
            streams load_start h
  = (Raise (load_not_found data_source_id), h1).
Proof.
  intros Hreq Hiter Hk Hid Hnone.
  destruct (nest_loads_lookup xs [] Hk) as (d & Hd & _ & Hsrc & _).
  { intros s v [=]. }
  assert (Hloads : list_recent_loads env self (Some data_source_id) h
                   = (Ret [], h1)).
  { unfold list_recent_loads. rewrite (bind_Ret _ _ _ _ _ Hreq).
    unfold lift at 1. rewrite Hiter. cbn [obind]. rewrite Hd.
    unfold bind.
    replace (negb (String.eqb data_source_id EmptyString)) with true
      by (symmetry; apply negb_true_iff; now apply String.eqb_neq).
    now rewrite (Hsrc _ Hnone). }
  cbn [load_loop]. now rewrite (bind_Ret _ _ _ _ _ Hloads).
Qed.

Lemma load_poll_fails_without_a_load_witness :
  load_loop mixed_loads_env Fixture.resource 3 "quux" (OFloat 10%float)
    (OFloat 5%float) [] Fixture.now0 []
  = (Raise (load_not_found "quux"),
     [EvRequest "GET" "https://api.stitchdata.com/v4/sources/bar/loads"
                None]).
Proof.
  apply (load_poll_fails_without_a_load mixed_loads_env Fixture.resource 2
           "quux" (OFloat 10%float) (OFloat 5%float) [] Fixture.now0 []
           (VList mixed_loads) _ mixed_loads).
  - reflexivity.
  - reflexivity.
  - intros x f [<-|[<-|[<-|[<-|[]]]]] [<-|[<-|[]]]; eexists; reflexivity.
  - discriminate.
  - intros x [<-|[<-|[<-|[<-|[]]]]]; reflexivity.
Defined.

(** ** A selected stream without a load *)

Section MissingLoad.

Variables streams loads : dict.
Variable load_start : datetime.

(** Streams that pass are visited without an exception; they leave
    warnings in the history, nothing else. *)
Lemma check_streams_passes : forall pre rest acc h,
  (forall k, In k pre -> stream_passes streams loads load_start k) ->
  exists acc' warnings,
    check_streams (pre ++ rest)%list streams loads load_start acc h
    = check_streams rest streams loads load_start acc' (warnings ++ h)%list
    /\ Forall is_warning warnings.
Proof.
  induction pre as [|k pre IH]; intros rest acc h Hall.
  - exists acc, []. split; [reflexivity | constructor].
  - assert (Hpre : forall k', In k' pre ->
                     stream_passes streams loads load_start k')
      by (intros k' Hin; apply Hall; now right).
    destruct (Hall k (or_introl eq_refl))
      as (descr & metadata & selected & Eg & Em & Es & Hsel).
    cbn [app check_streams].
    rewrite bind_lift, subscript_key_value, Eg.
    rewrite bind_lift, Em. rewrite bind_lift, Es.
    destruct (truthy selected) eqn:Ts; [|now apply IH].
    destruct (Hsel eq_refl)
      as (stream_name & load & error_state & En & El & Ee & Hcase).
    rewrite bind_lift, En. rewrite bind_lift, (subscript_dict_in _ _ _ El).
    cbn [negb]. rewrite bind_lift, El. rewrite bind_lift, Ee.
    destruct (truthy error_state).
    + destruct Hcase as [message Emsg]. rewrite bind_lift, Emsg.
      unfold bind at 1. unfold log, emit.
      destruct (IH rest acc
                  (EvLog WARNING (stream_load_failed stream_name message)
                   :: h) Hpre) as (acc' & ws & Hrun & Hws).
      exists acc', (ws ++ [EvLog WARNING
                             (stream_load_failed stream_name message)])%list.
      rewrite <- app_assoc. split; [exact Hrun|].
      apply Forall_app. split; [exact Hws | repeat constructor].
    + destruct Hcase as (last_batch & stale & Eb & Est).
      rewrite bind_lift, Eb. rewrite bind_lift, Est. now apply IH.
Qed.

End MissingLoad.

(** X10.  A selected stream without a load among the loads of the data
    source ends the load poll with [Load for stream ... not found] as soon
    as the poll reaches it, although other streams have loads: the failure
    names the stream, no timeout is consulted and nothing sleeps; only
    warnings for failed loads of earlier streams come before it. *)
Theorem load_poll_fails_on_selected_stream_without_load env self fuel
    data_source_id poll_interval load_timeout streams load_start h loads h1
    pre k post descr stream_name :
  list_recent_loads env self (Some data_source_id) h = (Ret loads, h1) ->
  loads <> [] ->
  dict_keys streams = (pre ++ k :: post)%list ->
  (forall k', In k' pre -> stream_passes streams loads load_start k') ->
  dict_get streams k = Some descr ->
  is_selected descr ->
  item descr "stream_name" = Ret stream_name ->
  py_in stream_name (VDict loads) = Ret false ->
  exists warnings,
    load_loop env self (S fuel) data_source_id poll_interval load_timeout
              streams load_start h
    = (Raise (stream_load_missing stream_name),
       (warnings ++ EvLog INFO [Lit "Polled loads for source ";
                                FStr data_source_id] :: h1)%list)
    /\ Forall is_warning warnings.
Proof.
  intros Hpoll Hne Hkeys Hpre Eg (metadata & selected & Em & Es & Ts) En Hin.
  destruct (check_streams_passes streams loads load_start pre (k :: post)
              true (EvLog INFO [Lit "Polled loads for source ";
                                FStr data_source_id] :: h1) Hpre)
    as (acc & warnings & Hrun & Hws).
  exists warnings. split; [|exact Hws].
  cbn [load_loop]. rewrite (bind_Ret _ _ _ _ _ Hpoll).
  destruct loads as [|kv rest]; [contradiction|].
  unfold bind at 1. unfold log, emit.
  apply bind_Raise. rewrite Hkeys, Hrun. cbn [check_streams].
  rewrite bind_lift, subscript_key_value, Eg.
  rewrite bind_lift, Em. rewrite bind_lift, Es. rewrite Ts.
  rewrite bind_lift, En. rewrite bind_lift, Hin. reflexivity.
Qed.

Lemma load_poll_fails_on_selected_stream_without_load_witness :
  exists warnings,
    load_loop (Fixture.mock_env missing_load_routes Fixture.now0)
      Fixture.resource 3 "bing" (OFloat 10%float) ONone two_selected_streams
      Fixture.now0 []
    = (Raise (stream_load_missing (VStr "aux")),
       (warnings
        ++ [EvLog INFO [Lit "Polled loads for source "; FStr "bing"];
            EvRequest "GET" "https://api.stitchdata.com/v4/sources/bar/loads"
                      None])%list)
    /\ Forall is_warning warnings.
Proof.
  apply (load_poll_fails_on_selected_stream_without_load
              (Fixture.mock_env missing_load_routes Fixture.now0)
              Fixture.resource 2 "bing" (OFloat 10%float) ONone
              two_selected_streams Fixture.now0 []
              [(KStr "qux",
                Fixture.load_record "bing" "qux" (VStr Fixture.tomorrow)
                                    VNone)]
              [EvRequest "GET"
                 "https://api.stitchdata.com/v4/sources/bar/loads" None]
              [KStr "qux"] (KStr "aux") []
              (Fixture.stream_descriptor "aux" true) (VStr "aux")).
  - reflexivity.
  - discriminate.
  - reflexivity.
  - intros k' [<-|[]]. do 3 eexists.
    split; [reflexivity|]. split; [reflexivity|]. split; [reflexivity|].
    intros _. do 3 eexists.
    split; [reflexivity|]. split; [reflexivity|]. split; [reflexivity|].
    cbn. do 2 eexists. split; reflexivity.
  - reflexivity.
  - do 2 eexists. split; [reflexivity|]. split; reflexivity.
  - reflexivity.
  - reflexivity.
Defined.

(* ================================================================= *)
(** * Further properties of the two poll loops *)

(** The exit test of the extraction poll is never false: it holds, or the
    comparison of the record's [start_time] with a datetime raises. *)
Lemma extraction_observed_never_false extraction resp start :
  extraction_observed extraction resp start <> Ret false.
Proof.
  unfold extraction_observed.
  destruct (item extraction "job_name") as [observed | |]; try discriminate.
  cbn [obind].
  destruct (item resp "job_name") as [started | |]; try discriminate.
  cbn [obind]. destruct (py_eqb observed started); [discriminate|].
  destruct (item extraction "start_time"); discriminate.
Qed.

Lemma may_return_obind {A B} (o : outcome A) (k : A -> outcome B) :
  o <> OutOfFuel -> (forall a, k a <> OutOfFuel) -> obind o k <> OutOfFuel.
Proof.
  intros Ho Hk. destruct o; cbn [obind];
    [apply Hk | discriminate | now destruct Ho].
Qed.

Lemma subscript_returns_or_raises v i : subscript v i <> OutOfFuel.
Proof.
  unfold subscript, list_index.
  destruct v; try discriminate.
  - destruct i; try discriminate;
      match goal with
      | |- (if ?c then _ else _) <> _ =>
          destruct c; [|discriminate];
          match goal with
          | |- match ?n with _ => _ end <> _ => destruct n; discriminate
          end
      end.
  - destruct i; try discriminate;
      match goal with
      | |- (if ?c then _ else _) <> _ =>
          destruct c; [|discriminate];
          match goal with
          | |- match ?n with _ => _ end <> _ => destruct n; discriminate
          end
      end.
  - destruct (hash_key i); [|discriminate].
    match goal with
    | |- match ?n with _ => _ end <> _ => destruct n; discriminate
    end.
Qed.

Lemma py_iter_returns_or_raises v : py_iter v <> OutOfFuel.
Proof. destruct v; discriminate. Qed.

Lemma dict_by_returns_or_raises field : forall xs acc,
  dict_by field xs acc <> OutOfFuel.
Proof.
  induction xs as [|x xs IH]; intros acc; cbn [dict_by]; [discriminate|].
  apply may_return_obind; [apply subscript_returns_or_raises|].
  intros kv. destruct (hash_key kv); [apply IH | discriminate].
Qed.

Lemma get_extractions_returns_or_raises env self id h :
  fst (get_extractions env self id h) <> OutOfFuel.
Proof.
  unfold get_extractions. unfold bind at 1.
  pose proof (make_request_total env self "GET"
                ("sources/" ++ _account_id self ++ "/extractions") None h)
    as Hreq.
  destruct (make_request env self "GET" _ None h) as [[body | e |] h1];
    cbn [fst] in *; [|discriminate|contradiction].
  rewrite bind_lift.
  pose proof (may_return_obind (py_iter body)
                (fun xs => dict_by "source_id" xs [])
                (py_iter_returns_or_raises body)
                (fun xs => dict_by_returns_or_raises "source_id" xs []))
    as Hmap.
  destruct (obind (py_iter body) _) as [m | e |];
    [|cbn; discriminate|contradiction].
  destruct id; cbn; discriminate.
Qed.

(** X11.  The extraction poll never goes round twice.  Its first round
    returns the record or raises (a record of another job makes the exit
    test compare a string with a datetime), so the loop never reaches the
    timeout test or the sleep: the outcome of the extraction phase is the
    same for every [poll_interval], every [extraction_timeout] and every
    bound on the number of polls, and it is never cut off by that bound. *)
Theorem extraction_phase_ignores_poll_interval_and_timeout env self
    data_source_id extraction_start replication_response h
    fuel poll_interval extraction_timeout
    fuel' poll_interval' extraction_timeout' :
  extraction_loop env self (S fuel) data_source_id poll_interval
    extraction_timeout extraction_start replication_response h
  = extraction_loop env self (S fuel') data_source_id poll_interval'
      extraction_timeout' extraction_start replication_response h
  /\ fst (extraction_loop env self (S fuel) data_source_id poll_interval
            extraction_timeout extraction_start replication_response h)
     <> OutOfFuel.
Proof.
  assert (Hround : forall fuel0 pi et,
    extraction_loop env self (S fuel0) data_source_id pi et extraction_start
      replication_response h
    = extraction_loop env self 1 data_source_id ONone ONone extraction_start
        replication_response h
    /\ fst (extraction_loop env self (S fuel0) data_source_id pi et
              extraction_start replication_response h) <> OutOfFuel).
  { intros fuel0 pi et. cbn [extraction_loop].
    pose proof (get_extractions_returns_or_raises env self
                  (Some data_source_id) h) as Hget.
    destruct (get_extractions env self (Some data_source_id) h)
      as [[extraction | e |] h1] eqn:Eget; cbn [fst] in Hget;
      [ | rewrite !(bind_Raise _ _ _ _ _ Eget);
          split; [reflexivity | discriminate]
        | contradiction].
    erewrite !bind_Ret by exact Eget.
    destruct (negb (truthy extraction));
      [split; [reflexivity | discriminate]|].
    rewrite !bind_lift.
    pose proof (subscript_returns_or_raises extraction (VStr "job_name"))
      as Hjob.
    fold (item extraction "job_name") in Hjob.
    destruct (item extraction "job_name") as [job_name | e |];
      [|split; [reflexivity | discriminate] | contradiction].
    rewrite !bind_lift.
    pose proof (subscript_returns_or_raises extraction (VStr "start_time"))
      as Hstart.
    fold (item extraction "start_time") in Hstart.
    destruct (item extraction "start_time") as [start_time | e |];
      [|split; [reflexivity | discriminate] | contradiction].
    assert (Hlog : forall B (k : unit -> M B) msg h0,
              bind (log INFO msg) k h0 = k tt (EvLog INFO msg :: h0))
      by reflexivity.
    rewrite !Hlog. rewrite !bind_lift.
    pose proof (extraction_observed_never_false extraction
                  replication_response extraction_start) as Hobs.
    assert (Hdef : extraction_observed extraction replication_response
                     extraction_start <> OutOfFuel).
    { unfold extraction_observed.
      apply may_return_obind; [apply subscript_returns_or_raises|].
      intros o. apply may_return_obind; [apply subscript_returns_or_raises|].
      intros s. destruct (py_eqb o s); [discriminate|].
      apply may_return_obind; [apply subscript_returns_or_raises|].
      discriminate. }
    destruct (extraction_observed extraction replication_response
                extraction_start) as [[] | e |];
      [split; [reflexivity | discriminate]
      | contradiction
      | split; [reflexivity | discriminate]
      | contradiction]. }
  split; [|apply Hround].
  rewrite (proj1 (Hround fuel poll_interval extraction_timeout)).
  now rewrite (proj1 (Hround fuel' poll_interval' extraction_timeout')).
Qed.

Section ZeroTimeout.

Variable env : Env.
Variable self : StitchResource.

(** A load timeout that is false in Python's sense is no timeout. *)
Lemma load_loop_falsy_timeout data_source_id poll_interval load_timeout
    streams load_start :
  obj_truthy load_timeout = false ->
  forall fuel h,
    load_loop env self fuel data_source_id poll_interval load_timeout
              streams load_start h
    = load_loop env self fuel data_source_id poll_interval ONone streams
                load_start h.
Proof.
  intros Hfalse. induction fuel as [|fuel IH]; intros h; [reflexivity|].
  cbn [load_loop].
  destruct (list_recent_loads env self (Some data_source_id) h)
    as [[[|kv loads] | e |] h1] eqn:Eloads;
    [ erewrite !bind_Ret by exact Eloads; reflexivity
    | erewrite !bind_Ret by exact Eloads
    | rewrite !(bind_Raise _ _ _ _ _ Eloads); reflexivity
    | unfold bind; rewrite Eloads; reflexivity ].
  assert (Hlog : forall B (k : unit -> M B) msg h0,
            bind (log INFO msg) k h0 = k tt (EvLog INFO msg :: h0))
    by reflexivity.
  rewrite !Hlog.
  destruct (check_streams (dict_keys streams) streams (kv :: loads)
              load_start true
              (EvLog INFO [Lit "Polled loads for source ";
                           FStr data_source_id] :: h1))
    as [[[] | e |] h2] eqn:Echeck;
    [ erewrite !bind_Ret by exact Echeck; reflexivity
    | erewrite !bind_Ret by exact Echeck
    | rewrite !(bind_Raise _ _ _ _ _ Echeck); reflexivity
    | unfold bind; rewrite Echeck; reflexivity ].
  cbn [negb]. unfold timeout_exceeded. rewrite Hfalse.
  cbn [obj_truthy ONone truthy].
  assert (Hret : forall B (k : bool -> M B) h0,
            bind (ret false) k h0 = k false h0) by reflexivity.
  rewrite !Hret.
  destruct (time_sleep poll_interval h2) as [[[] | e |] h3] eqn:Esleep;
    [ erewrite !bind_Ret by exact Esleep; apply IH
    | rewrite !(bind_Raise _ _ _ _ _ Esleep); reflexivity
    | unfold bind; rewrite Esleep; reflexivity ].
Qed.

End ZeroTimeout.

(** X12.  A [load_timeout] of zero does not time the load phase out at
    once, it switches the timeout off: for [0], [0.0], an empty timedelta
    and every other value that is false in Python's sense the call is the
    call without a load timeout. *)
Theorem falsy_load_timeout_is_no_timeout env self fuel data_source_id
    poll_interval extraction_timeout load_timeout h :
  obj_truthy load_timeout = false ->
  start_replication_job_and_poll env self fuel data_source_id poll_interval
    extraction_timeout load_timeout h
  = start_replication_job_and_poll env self fuel data_source_id
      poll_interval extraction_timeout ONone h.
Proof.
  intros Hfalse. unfold start_replication_job_and_poll, load_phase.
  assert (Hext : forall A B (m : M A) (k1 k2 : A -> M B) h0,
            (forall a h1, k1 a h1 = k2 a h1) ->
            bind m k1 h0 = bind m k2 h0).
  { intros A B m k1 k2 h0 Hk. unfold bind.
    destruct (m h0) as [[a | e |] h1]; auto. }
  apply Hext; intros start h1.
  apply Hext; intros resp h2.
  apply Hext; intros extraction h3.
  apply Hext; intros _ h4.
  apply Hext; intros streams h5.
  apply Hext; intros load_start h6.
  unfold bind at 1 3.
  now rewrite (load_loop_falsy_timeout env self _ _ _ _ _ Hfalse).
Qed.

Lemma falsy_load_timeout_is_no_timeout_witness :
  start_replication_job_and_poll never_loaded Fixture.resource 3 "bing"
    ONone ONone (OFloat 0%float) []
  = start_replication_job_and_poll never_loaded Fixture.resource 3 "bing"
      ONone ONone ONone []
  /\ start_replication_job_and_poll never_loaded Fixture.resource 3 "bing"
       ONone ONone (OTimedelta 0) []
     = start_replication_job_and_poll never_loaded Fixture.resource 3 "bing"
         ONone ONone ONone [].
Proof.
  split;
    apply (falsy_load_timeout_is_no_timeout never_loaded Fixture.resource 3
             "bing" ONone ONone); reflexivity.
Defined.

(* ================================================================= *)
(** * The call from start to end *)

Section AnsweringServer.

Variable env : Env.
Variable self : StitchResource.
Hypothesis retries_allowed : 1 <= _request_max_retries self.






End AnsweringServer.



(** ** The account-wide loads, and a failed stage *)

(** X14.  Without a data source, and also with the empty string for one
    ([if data_source_id:] takes it for none), [list_recent_loads] returns
    the loads of the whole account nested by source and then by stream:
    under a source and a stream sits the last load of the response for that
    pair, and every source that occurs has at least one stream. *)
Theorem list_recent_loads_nests_by_source_and_stream env self h body h1 xs
    data_source_id :
  make_request env self "GET" ("sources/" ++ _account_id self ++ "/loads")
               None h = (Ret body, h1) ->
  py_iter body = Ret xs ->
  all_keyed ["source_name"; "stream_name"] xs ->
  data_source_id = None \/ data_source_id = Some EmptyString ->
  exists all_loads,
    list_recent_loads env self data_source_id h = (Ret all_loads, h1)
    /\ nested all_loads
    /\ forall source stream,
         nested_get all_loads source stream = last_load source stream xs.
Proof.
  intros Hreq Hiter Hk Hid.
  destruct (nest_loads_lookup xs [] Hk) as (d & Hd & Hnd & _ & Hget).
  { intros s v [=]. }
  exists d. split; [|split; [exact Hnd|]].
  - unfold list_recent_loads. rewrite (bind_Ret _ _ _ _ _ Hreq).
    unfold lift at 1. rewrite Hiter. cbn [obind]. rewrite Hd.
    destruct Hid as [-> | ->]; reflexivity.
  - intros source stream. rewrite Hget.
    now destruct (last_load source stream xs).
Qed.

Lemma list_recent_loads_nests_by_source_and_stream_witness :
  exists all_loads,
    list_recent_loads mixed_loads_env Fixture.resource (Some EmptyString) []
    = (Ret all_loads,
       [EvRequest "GET" "https://api.stitchdata.com/v4/sources/bar/loads"
                  None])
    /\ nested_get all_loads (KStr "other") (KStr "qux")
       = Some (Fixture.load_record "other" "qux" (VStr Fixture.tomorrow)
                                   VNone)
    /\ nested_get all_loads (KStr "bing") (KStr "zap") = None.
Proof.
  destruct (list_recent_loads_nests_by_source_and_stream
              mixed_loads_env Fixture.resource [] (VList mixed_loads)
              [EvRequest "GET"
                 "https://api.stitchdata.com/v4/sources/bar/loads" None]
              mixed_loads (Some EmptyString))
    as (all_loads & Hrun & _ & Hget).
  - reflexivity.
  - reflexivity.
  - intros x f [<-|[<-|[<-|[<-|[]]]]] [<-|[<-|[]]]; eexists; reflexivity.
  - now right.
  - exists all_loads. split; [exact Hrun|]. split; rewrite Hget; reflexivity.
Defined.

(** X15.  A stage that failed ends the call before the load phase: once
    the poll has found the record of the started job, a stage check that
    raises makes the whole call raise the same, and the log line of that
    poll is the last thing the call did; neither the stream list nor the
    loads are requested. *)
Theorem failed_stage_ends_the_call_before_the_load_phase env self fuel
    data_source_id poll_interval extraction_timeout load_timeout h
    replication_response h1 extraction h2 observed started start_time e :
  start_replication_job env self data_source_id (EvNow (clock env h) :: h)
  = (Ret replication_response, h1) ->
  get_extractions env self (Some data_source_id) h1 = (Ret extraction, h2) ->
  item extraction "job_name" = Ret observed ->
  item extraction "start_time" = Ret start_time ->
  item replication_response "job_name" = Ret started ->
  py_eqb observed started = true ->
  stage_check failure_modes extraction = Raise e ->
  start_replication_job_and_poll env self (S fuel) data_source_id
    poll_interval extraction_timeout load_timeout h
  = (Raise e,
     EvLog INFO (polled_extractions data_source_id observed start_time)
     :: h2).
Proof.
  intros Hstart Hget Hobs Hst Hresp Heq Hstage.
  unfold start_replication_job_and_poll.
  unfold bind at 1. unfold datetime_now.
  rewrite (bind_Ret _ _ _ _ _ Hstart).
  assert (Hloop : forall pi et,
    extraction_loop env self (S fuel) data_source_id pi et
      (clock env h) replication_response h1
    = (Ret extraction,
       EvLog INFO (polled_extractions data_source_id observed start_time)
       :: h2)).
  { intros pi et. cbn [extraction_loop]. rewrite (bind_Ret _ _ _ _ _ Hget).
    rewrite (item_truthy _ _ _ Hobs). cbn [negb].
    rewrite (bind_lift_Ret _ _ _ _ Hobs), (bind_lift_Ret _ _ _ _ Hst).
    unfold log, emit. unfold bind at 1.
    assert (Hdone : extraction_observed extraction replication_response
                      (clock env h) = Ret true).
    { unfold extraction_observed. rewrite Hobs; cbn [obind].
      rewrite Hresp; cbn [obind]. now rewrite Heq. }
    now rewrite (bind_lift_Ret _ _ _ _ Hdone). }
  rewrite (bind_Ret _ _ _ _ _ (Hloop _ _)).
  rewrite bind_lift, Hstage. reflexivity.
Qed.

Lemma failed_stage_ends_the_call_before_the_load_phase_witness :
  start_replication_job_and_poll failed_tap Fixture.resource 1 "bing"
    ONone ONone ONone []
  = (Raise (stage_failed "tap" (VInt 1) (VStr "tap crashed")),
     [EvLog INFO (polled_extractions "bing" (VStr "baz")
                    (VStr "2023-02-19T03:11:48Z"));
      EvRequest "GET" "https://api.stitchdata.com/v4/sources/bar/extractions"
                None;
      EvRequest "POST" "https://api.stitchdata.com/v4/sources/bing/sync"
                None;
      EvNow Fixture.now0]).
Proof.
  apply (failed_stage_ends_the_call_before_the_load_phase failed_tap
           Fixture.resource 0 "bing" ONone ONone ONone []
           (Fixture.obj [("job_name", VStr "baz")])
           [EvRequest "POST"
              "https://api.stitchdata.com/v4/sources/bing/sync" None;
            EvNow Fixture.now0]
           failed_tap_record
           [EvRequest "GET"
              "https://api.stitchdata.com/v4/sources/bar/extractions" None;
            EvRequest "POST"
              "https://api.stitchdata.com/v4/sources/bing/sync" None;
            EvNow Fixture.now0]
           (VStr "baz") (VStr "baz") (VStr "2023-02-19T03:11:48Z"));
    reflexivity.
Defined.
